(** * Countdown timer widget (src/App.tsx): a shallow embedding

    The component [CountdownTimer] keeps five pieces of React state
    ([time], [isRunning], [isCompleted], [showAlert], [inputValue]) and
    changes them from event handlers and from a one-second interval
    callback.  Each handler is embedded as a function on a record of that
    state; the JavaScript builtins the handlers call ([split], [trim],
    [parseInt], [toString], [padStart]) are embedded in [Module JS].
    The timer effect is embedded twice: as the guard of [tick], and with
    its interval handles written out ([Timers], [widgetStep]); the two
    are proved to agree.

    Numbers.  A JavaScript number is a double.  The embedding uses [Z]
    for the integer-valued ones: [None] stands for NaN, and -0 is
    identified with 0 (the source only compares with [=== 0], [> 0] and
    [|| 0], none of which tells them apart).  The subtraction of the
    countdown rounds as doubles do ([JS.roundDouble]).  [JS.parseInt]
    and [JS.toString] are exact on the safe integers (magnitude at most
    2^53 - 1); the statements that depend on their values carry that
    bound ([safeInteger], [safeTime]).  Infinity is not represented.

    Strings.  A JavaScript string is a sequence of UTF-16 code units.  The
    embedding uses [string], reading each [ascii] as the code unit of the
    same number (0..255). *)

From Stdlib Require Import ZArith List String Ascii Bool Lia.
Import ListNotations.

Local Open Scope string_scope.
Local Open Scope Z_scope.

(* ================================================================== *)
(** ** The JavaScript builtins used by the component *)

Module JS.

(** Code unit of a character. *)
Definition code (c : ascii) : Z := Z.of_N (N_of_ascii c).

(** WhiteSpace and LineTerminator code units below 256:
    TAB, LF, VT, FF, CR, SP, NBSP. *)
Definition isWhiteSpace (c : ascii) : bool :=
  let n := code c in
  ((9 <=? n) && (n <=? 13)) || (n =? 32) || (n =? 160).

(** [String.prototype.trimStart]. *)
Fixpoint trimStart (s : string) : string :=
  match s with
  | String c r => if isWhiteSpace c then trimStart r else s
  | EmptyString => EmptyString
  end.

(** [String.prototype.trimEnd]. *)
Fixpoint trimEnd (s : string) : string :=
  match s with
  | String c r =>
      match trimEnd r with
      | EmptyString => if isWhiteSpace c then EmptyString else String c EmptyString
      | r' => String c r'
      end
  | EmptyString => EmptyString
  end.

(** [String.prototype.trim]. *)
Definition trim (s : string) : string := trimEnd (trimStart s).

(** [String.prototype.split] with a one-character separator.  The empty
    string splits into one empty part. *)
Fixpoint split (sep : ascii) (s : string) : list string :=
  match s with
  | EmptyString => [EmptyString]
  | String c r =>
      if Ascii.eqb c sep then EmptyString :: split sep r
      else match split sep r with
           | p :: ps => String c p :: ps
           | [] => [String c EmptyString]
           end
  end.

(** Value of a character as a digit (0-9, a-z, A-Z count up to 35). *)
Definition digitValue (c : ascii) : option Z :=
  let n := code c in
  if (48 <=? n) && (n <=? 57) then Some (n - 48)
  else if (97 <=? n) && (n <=? 122) then Some (n - 87)
  else if (65 <=? n) && (n <=? 90) then Some (n - 55)
  else None.

Definition radixDigit (R : Z) (c : ascii) : option Z :=
  match digitValue c with
  | Some v => if v <? R then Some v else None
  | None => None
  end.

(** Steps 9-12 of [parseInt]: the longest prefix of radix-[R] digits and
    its value; [None] (NaN) when that prefix is empty. *)
Fixpoint scanDigits (R : Z) (s : string) (acc : Z) (seen : bool) : option Z :=
  match s with
  | String c r =>
      match radixDigit R c with
      | Some v => scanDigits R r (acc * R + v) true
      | None => if seen then Some acc else None
      end
  | EmptyString => if seen then Some acc else None
  end.

(** Steps 3-4 of [parseInt]: the sign and the string after it. *)
Definition stripSign (s : string) : Z * string :=
  match s with
  | String c r =>
      if Ascii.eqb c "-" then (-1, r)
      else if Ascii.eqb c "+" then (1, r)
      else (1, s)
  | EmptyString => (1, s)
  end.

(** Step 8 of [parseInt] with no radix argument: a leading 0x or 0X
    selects radix 16, anything else radix 10. *)
Definition stripPrefix (s : string) : Z * string :=
  match s with
  | String c0 (String c1 r) =>
      if Ascii.eqb c0 "0" && (Ascii.eqb c1 "x" || Ascii.eqb c1 "X")
      then (16, r)
      else (10, s)
  | _ => (10, s)
  end.

(** [parseInt(s)] called with one argument.  The integer is the exact
    one; the source has the double nearest to it, which is the same
    integer up to 2^53 - 1. *)
Definition parseInt (s : string) : option Z :=
  let '(sign, s1) := stripSign (trimStart s) in
  let '(R, s2) := stripPrefix s1 in
  option_map (Z.mul sign) (scanDigits R s2 0 false).

(** 2^53: every integer of smaller magnitude is a double. *)
Definition twoTo53 : Z := 9007199254740992.

(** The double nearest to the integer [z]: round to nearest, ties to
    even, with the 53 bits of a double's significand.  (Overflow to
    Infinity, beyond 2^1024, is not represented.) *)
Definition roundDouble (z : Z) : Z :=
  let a := Z.abs z in
  if a <? twoTo53 then z
  else
    let ulp := 2 ^ (Z.log2 a - 52) in
    let q := a / ulp in
    let r := a mod ulp in
    let q' := if 2 * r <? ulp then q
              else if ulp <? 2 * r then q + 1
              else if Z.even q then q else q + 1 in
    Z.sgn z * (q' * ulp).

(** [x - y] on integer-valued doubles. *)
Definition sub (x y : Z) : Z := roundDouble (x - y).

(** [x || 0] on a number: NaN and 0 are falsy. *)
Definition orZero (x : option Z) : Z :=
  match x with
  | Some v => if v =? 0 then 0 else v
  | None => 0
  end.

(** Decimal digit as a character. *)
Definition digitChar (d : Z) : ascii := ascii_of_N (Z.to_N (48 + d)).

(** Digits of a non-negative integer, most significant first, put in
    front of [acc]. *)
Fixpoint toDigits (fuel : nat) (n : Z) (acc : string) : string :=
  match fuel with
  | O => acc
  | S f =>
      let acc' := String (digitChar (n mod 10)) acc in
      if n / 10 =? 0 then acc' else toDigits f (n / 10) acc'
  end.

(** A number of steps that covers every digit of [n]. *)
Definition digitFuel (n : Z) : nat := S (Z.to_nat (Z.log2 n)).

(** [Number.prototype.toString] on an integer: all its decimal digits.
    The source writes the same text for every safe integer; from 10^21
    on it switches to exponent notation, which is not represented. *)
Definition toString (n : Z) : string :=
  if n <? 0 then String "-" (toDigits (digitFuel (- n)) (- n) EmptyString)
  else toDigits (digitFuel n) n EmptyString.

(** The first [n] characters of [fill] repeated for ever; [cur] is what
    is left of the copy being read. *)
Fixpoint filler (fill cur : string) (n : nat) : string :=
  match n with
  | O => EmptyString
  | S k =>
      match cur with
      | String c r => String c (filler fill r k)
      | EmptyString =>
          match fill with
          | String c r => String c (filler fill r k)
          | EmptyString => EmptyString
          end
      end
  end.

(** [String.prototype.padStart]. *)
Definition padStart (target : nat) (fill : string) (s : string) : string :=
  if (target <=? String.length s)%nat then s
  else filler fill fill (target - String.length s) ++ s.

End JS.

(* ================================================================== *)
(** ** The data model *)

(** [interface TimeState]. *)
Record TimeState : Set := mkTime { hours : Z; minutes : Z; seconds : Z }.

Definition zeroTime : TimeState := mkTime 0 0 0.

(** The test [hours === 0 && minutes === 0 && seconds === 0]. *)
Definition isZero (t : TimeState) : bool :=
  (hours t =? 0) && (minutes t =? 0) && (seconds t =? 0).

(** [input.split(':').map((part) => parseInt(part.trim()) || 0)]. *)
Definition partValue (part : string) : Z := JS.orZero (JS.parseInt (JS.trim part)).

Definition parts (input : string) : list Z :=
  map partValue (JS.split ":" input).

(** [parseTimeInput].  The indices read are below the length tested, so
    the default of [nth] is never returned. *)

Definition parseTimeInput (input : string) : TimeState :=
  let parts := parts input in
  if (List.length parts =? 2)%nat then
    mkTime 0 (nth 0 parts 0) (nth 1 parts 0)
  else if (List.length parts =? 3)%nat then
    mkTime (nth 0 parts 0) (nth 1 parts 0) (nth 2 parts 0)
  else mkTime 0 0 0.

(** [n.toString().padStart(2, '0')]. *)
Definition pad2 (n : Z) : string := JS.padStart 2 "0" (JS.toString n).

(** [formatTime]. *)
Definition formatTime (t : TimeState) : string :=
  if hours t >? 0
  then pad2 (hours t) ++ ":" ++ pad2 (minutes t) ++ ":" ++ pad2 (seconds t)
  else pad2 (minutes t) ++ ":" ++ pad2 (seconds t).

(* ================================================================== *)
(** ** The component state and its handlers *)

(** The [useState] cells of the component, and [beeps]: how many times
    [beepRef.current.play] has been called (the component does not store
    it; it records the audible effect). *)
Record State : Set := mkState {
  time : TimeState;
  isRunning : bool;
  isCompleted : bool;
  showAlert : bool;
  inputValue : string;
  beeps : nat
}.

(** The values passed to [useState]. *)
Definition initialState : State :=
  mkState (mkTime 0 5 0) false false false "05:00" 0.

Definition setTime (t : TimeState) (s : State) : State :=
  mkState t (isRunning s) (isCompleted s) (showAlert s) (inputValue s) (beeps s).
Definition setIsRunning (b : bool) (s : State) : State :=
  mkState (time s) b (isCompleted s) (showAlert s) (inputValue s) (beeps s).
Definition setIsCompleted (b : bool) (s : State) : State :=
  mkState (time s) (isRunning s) b (showAlert s) (inputValue s) (beeps s).
Definition setShowAlert (b : bool) (s : State) : State :=
  mkState (time s) (isRunning s) (isCompleted s) b (inputValue s) (beeps s).
Definition setInputValue (v : string) (s : State) : State :=
  mkState (time s) (isRunning s) (isCompleted s) (showAlert s) v (beeps s).
Definition playBeep (s : State) : State :=
  mkState (time s) (isRunning s) (isCompleted s) (showAlert s) (inputValue s)
          (S (beeps s)).

(** The status shown by the component: the display tests [isCompleted]
    first and [isRunning] second, and the interval runs when
    [isRunning && !isCompleted]. *)
Inductive TimerStatus : Set := Idle | Running | Completed.

Definition status (s : State) : TimerStatus :=
  if isCompleted s then Completed
  else if isRunning s then Running
  else Idle.

(** The updater passed to [setTime] by the interval callback, together
    with the setters it calls.  [prevTime] is the current [time]. *)
Definition tickCallback (s : State) : State :=
  let prevTime := time s in
  let hours := hours prevTime in
  let minutes := minutes prevTime in
  let seconds := seconds prevTime in
  if (hours =? 0) && (minutes =? 0) && (seconds =? 0) then
    setTime prevTime
      (playBeep (setShowAlert true (setIsCompleted true (setIsRunning false s))))
  else if seconds >? 0 then
    setTime (mkTime hours minutes (JS.sub seconds 1)) s
  else if minutes >? 0 then
    setTime (mkTime hours (JS.sub minutes 1) 59) s
  else if hours >? 0 then
    setTime (mkTime (JS.sub hours 1) 59 59) s
  else setTime prevTime s.

(** One period of the interval.  The effect arms the interval only when
    [isRunning && !isCompleted] and clears it otherwise. *)
Definition tick (s : State) : State :=
  if isRunning s && negb (isCompleted s) then tickCallback s else s.

(** [handleInputChange], with [value] for [e.target.value].  The tests
    read the rendered state [s]. *)
Definition handleInputChange (value : string) (s : State) : State :=
  let s1 := setInputValue value s in
  if negb (isRunning s) then
    let parsedTime := parseTimeInput value in
    setIsCompleted false (setTime parsedTime s1)
  else s1.

(** [handleStart]. *)
Definition handleStart (s : State) : State :=
  if isZero (time s) then s
  else setIsCompleted false (setIsRunning true s).

(** [handlePause]. *)
Definition handlePause (s : State) : State := setIsRunning false s.

(** [handleReset]. *)
Definition handleReset (s : State) : State :=
  let s3 := setShowAlert false (setIsCompleted false (setIsRunning false s)) in
  let parsedTime := parseTimeInput (inputValue s) in
  setTime parsedTime s3.

(** [handlePreset]. *)
Definition handlePreset (minutes : Z) (s : State) : State :=
  if negb (isRunning s) then
    let newTime := mkTime 0 minutes 0 in
    setIsCompleted false (setInputValue (formatTime newTime) (setTime newTime s))
  else s.

(** The Dismiss button: [() => setShowAlert(false)]. *)
Definition handleDismiss (s : State) : State := setShowAlert false s.

(** What can happen to the component. *)
Inductive Event : Set :=
| Start
| Pause
| Reset
| Tick
| Preset (minutes : Z)
| InputChange (value : string)
| Dismiss.

Definition step (s : State) (e : Event) : State :=
  match e with
  | Start => handleStart s
  | Pause => handlePause s
  | Reset => handleReset s
  | Tick => tick s
  | Preset m => handlePreset m s
  | InputChange v => handleInputChange v s
  | Dismiss => handleDismiss s
  end.

(** The state after a sequence of events, the first event first. *)
Definition run (s : State) (events : list Event) : State :=
  fold_left step events s.

(** [n] periods of the interval. *)
Fixpoint ticks (n : nat) (s : State) : State :=
  match n with
  | O => s
  | S k => ticks k (tick s)
  end.

(** Every field is a non-negative integer. *)
Definition nonNegative (t : TimeState) : Prop :=
  0 <= hours t /\ 0 <= minutes t /\ 0 <= seconds t.

(** The duration in seconds. *)
Definition totalSeconds (t : TimeState) : Z :=
  hours t * 3600 + minutes t * 60 + seconds t.

(** The decrement as the specification words it: seconds first, then a
    borrow from minutes, then a borrow from hours. *)
Definition borrowDecrement (t : TimeState) : TimeState :=
  if seconds t >? 0 then mkTime (hours t) (minutes t) (seconds t - 1)
  else if minutes t >? 0 then mkTime (hours t) (minutes t - 1) 59
  else mkTime (hours t - 1) 59 59.

(** The state after pressing Start on the initial state. *)
Definition startedState : State := run initialState [Start].

(** [Number.MAX_SAFE_INTEGER], 2^53 - 1. *)
Definition maxSafeInteger : Z := 9007199254740991.

(** An integer on which the arithmetic of doubles is exact. *)
Definition safeInteger (x : Z) : Prop := - maxSafeInteger <= x <= maxSafeInteger.

(** Every field is a safe integer. *)
Definition safeTime (t : TimeState) : Prop :=
  safeInteger (hours t) /\ safeInteger (minutes t) /\ safeInteger (seconds t).

(** A running countdown of 10^20 seconds: the text typed, then Start. *)
Definition hugeState : State :=
  run initialState [InputChange "0:100000000000000000000"; Start].

(** [isRunning] and [isCompleted] are not both set. *)
Definition exclusive (s : State) : Prop :=
  isRunning s && isCompleted s = false.

(* ================================================================== *)
(** ** Numerals, for the statements about the parser *)

(** A decimal digit. *)
Definition isDigit (c : ascii) : bool :=
  let n := JS.code c in (48 <=? n) && (n <=? 57).

Fixpoint allDigits (s : string) : bool :=
  match s with
  | String c r => isDigit c && allDigits r
  | EmptyString => true
  end.

(** The part without the blanks around it and without its sign. *)
Definition unsignedBody (part : string) : string :=
  snd (JS.stripSign (JS.trim part)).


(** The part is a decimal numeral: blanks and an optional sign apart, it
    is one or more digits and nothing else. *)
Definition isNumeric (part : string) : bool :=
  match unsignedBody part with
  | EmptyString => false
  | body => allDigits body
  end.

(** The value of a string of decimal digits, continuing from [acc]. *)
Fixpoint decimalValue (s : string) (acc : Z) : Z :=
  match s with
  | String c r => decimalValue r (acc * 10 + (JS.code c - 48))
  | EmptyString => acc
  end.





(** The value of a decimal numeral with its sign. *)
Definition numeralValue (part : string) : Z :=
  fst (JS.stripSign (JS.trim part)) * decimalValue (unsignedBody part) 0.



(* ================================================================== *)
(** ** The rendered controls and the interval effect *)

(** The condition of the timer effect, [isRunning && !isCompleted]. *)
Definition armed (s : State) : bool := isRunning s && negb (isCompleted s).

(** The [disabled] attribute of the Start button. *)
Definition startDisabled (s : State) : bool := isRunning s || isZero (time s).

(** The [disabled] attribute of the Pause button. *)
Definition pauseDisabled (s : State) : bool := negb (isRunning s).

(** The [disabled] attribute of the text input. *)
Definition inputDisabled (s : State) : bool := isRunning s.

(** The [disabled] attribute of every preset button. *)
Definition presetDisabled (s : State) : bool := isRunning s.

(** The [value] fields of [presetButtons]. *)
Definition presetButtons : list Z := [1; 5; 10; 15; 30; 60].

Definition isStart (e : Event) : bool :=
  match e with Start => true | _ => false end.

(** How many times Start is pressed in a sequence of events. *)
Definition countStart (events : list Event) : nat :=
  List.length (filter isStart events).

(** Start, Pause and the interval: the events that do not edit. *)
Definition clockEvent (e : Event) : bool :=
  match e with Start | Pause | Tick => true | _ => false end.

(** The events that never write [inputValue]. *)
Definition keepsInput (e : Event) : bool :=
  match e with Start | Pause | Reset | Tick | Dismiss => true | _ => false end.

(** The timers of the page as the effect uses them: the handles that
    are scheduled, the handle kept in [intervalRef.current] ([None] for
    null), and the handle the next [setInterval] returns.  Handles are
    positive, so a stored handle is truthy. *)
Record Timers : Set := mkTimers {
  live : list nat;
  intervalRef : option nat;
  nextId : nat
}.

Definition noTimers : Timers := mkTimers [] None 1.

(** [clearInterval(id)]: nothing happens when [id] is not scheduled. *)
Definition clearInterval (id : nat) (t : Timers) : Timers :=
  mkTimers (remove Nat.eq_dec id (live t)) (intervalRef t) (nextId t).

(** The body of the timer effect, with [a] for [isRunning && !isCompleted]. *)
Definition effectBody (a : bool) (t : Timers) : Timers :=
  if a then
    mkTimers (nextId t :: live t) (Some (nextId t)) (S (nextId t))
  else
    match intervalRef t with
    | Some id =>
        let t1 := clearInterval id t in
        mkTimers (live t1) None (nextId t1)
    | None => t
    end.

(** The function the timer effect returns. *)
Definition effectCleanup (t : Timers) : Timers :=
  match intervalRef t with
  | Some id => clearInterval id t
  | None => t
  end.

(** The component with its timers. *)
Record Widget : Set := mkWidget { state : State; timers : Timers }.

(** The first render: the effect body runs on the initial state. *)
Definition mountedWidget : Widget :=
  mkWidget initialState (effectBody (armed initialState) noTimers).

(** The dependencies [isRunning, isCompleted] did not change. *)
Definition sameDeps (s s' : State) : bool :=
  Bool.eqb (isRunning s) (isRunning s') && Bool.eqb (isCompleted s) (isCompleted s').

(** After a render the effect runs again when a dependency changed: the
    cleanup of the last run first, then the body. *)
Definition rerender (s s' : State) (t : Timers) : Timers :=
  if sameDeps s s' then t else effectBody (armed s') (effectCleanup t).

(** One event on the component with its timers.  The interval callback
    runs when a handle is scheduled; the handlers are the same. *)
Definition widgetStep (w : Widget) (e : Event) : Widget :=
  let s := state w in
  let s' :=
    match e with
    | Tick => match live (timers w) with
              | [] => s
              | _ :: _ => tickCallback s
              end
    | _ => step s e
    end in
  mkWidget s' (rerender s s' (timers w)).

Definition widgetRun (w : Widget) (events : list Event) : Widget :=
  fold_left widgetStep events w.

(** Unmounting runs the cleanup of the last effect. *)
Definition unmount (w : Widget) : Timers := effectCleanup (timers w).

(* ================================================================== *)
(** ** Texts, for the statements about parsing and display *)

(** How many times the character [sep] occurs in [s]. *)
Fixpoint occurrences (sep : ascii) (s : string) : nat :=
  match s with
  | String c r => ((if Ascii.eqb c sep then 1 else 0) + occurrences sep r)%nat
  | EmptyString => 0%nat
  end.

(** The number of colons of a text. *)
Definition colons (s : string) : nat := occurrences ":" s.

(** The text has no blank character. *)
Fixpoint noSpace (s : string) : bool :=
  match s with
  | String c r => negb (JS.isWhiteSpace c) && noSpace r
  | EmptyString => true
  end.

(** The text has a minus sign somewhere. *)
Definition hasMinus (s : string) : bool := negb (occurrences "-" s =? 0)%nat.

(** Events that bring no negative number: an edit without a minus sign,
    a preset that is not negative. *)
Definition benign (e : Event) : bool :=
  match e with
  | InputChange v => negb (hasMinus v)
  | Preset m => 0 <=? m
  | _ => true
  end.

(* ================================================================== *)
(** ** Invariants *)

(** [isCompleted] is set only on the duration {0,0,0}. *)
Definition completedAtZero (s : State) : Prop :=
  isCompleted s = true -> time s = zeroTime.

(** The beeps played, and one more while the interval is scheduled. *)
Definition beepCredit (s : State) : nat :=
  (beeps s + if armed s then 1 else 0)%nat.

(** The scheduled handles agree with the status: one handle, the one in
    [intervalRef], while the effect condition holds, and none otherwise. *)
Definition timersAgree (w : Widget) : Prop :=
  if armed (state w)
  then exists id, live (timers w) = [id] /\ intervalRef (timers w) = Some id
  else live (timers w) = [].

(** The duration and the parse of the input text are both non-negative. *)
Definition wellFormed (s : State) : Prop :=
  nonNegative (time s) /\ nonNegative (parseTimeInput (inputValue s)).

(** Start, Pause, Dismiss and the interval. *)
Definition quietEvent (e : Event) : bool :=
  match e with Start | Pause | Tick | Dismiss => true | _ => false end.

(* ================================================================== *)
(** ** Basic facts about the state *)

Lemma isZero_true (t : TimeState) : isZero t = true <-> t = zeroTime.
Proof.
  destruct t as [h m sec]; unfold isZero, zeroTime; simpl.
  rewrite !andb_true_iff, !Z.eqb_eq.
  split.
  - intros [[-> ->] ->]; reflexivity.
  - intros E; injection E; auto.
Qed.

Lemma isZero_false (t : TimeState) : isZero t = false <-> t <> zeroTime.
Proof.
  rewrite <- isZero_true.
  destruct (isZero t); split; congruence.
Qed.

(** The status is read off the two flags: all four cases are tried. *)
Ltac by_flags s :=
  unfold status;
  destruct (isCompleted s), (isRunning s);
  split; try discriminate; intuition congruence.

Lemma status_Running (s : State) :
  status s = Running <-> isRunning s = true /\ isCompleted s = false.
Proof. by_flags s. Qed.

Lemma status_Idle (s : State) :
  status s = Idle <-> isRunning s = false /\ isCompleted s = false.
Proof. by_flags s. Qed.

Lemma status_Completed (s : State) : status s = Completed <-> isCompleted s = true.
Proof. by_flags s. Qed.

Lemma setTime_same (s : State) : setTime (time s) s = s.
Proof. destruct s; reflexivity. Qed.

Lemma tick_armed (s : State) : status s = Running -> tick s = tickCallback s.
Proof.
  intros H; apply status_Running in H as [Hr Hc].
  unfold tick; rewrite Hr, Hc; reflexivity.
Qed.

Lemma tick_disarmed (s : State) : status s <> Running -> tick s = s.
Proof.
  intros H; unfold tick.
  destruct (isRunning s) eqn:Hr, (isCompleted s) eqn:Hc; simpl; try reflexivity.
  exfalso; apply H; apply status_Running; auto.
Qed.

(** The zero branch of the interval callback. *)
Lemma tickCallback_zero (s : State) :
  time s = zeroTime ->
  tickCallback s =
  mkState zeroTime false true true (inputValue s) (S (beeps s)).
Proof.
  intros H; unfold tickCallback; rewrite H; reflexivity.
Qed.

(** Below 2^53 the subtraction of doubles is the subtraction of
    integers. *)
Lemma roundDouble_exact (z : Z) : Z.abs z < JS.twoTo53 -> JS.roundDouble z = z.
Proof.
  intros H; unfold JS.roundDouble.
  destruct (Z.ltb_spec (Z.abs z) JS.twoTo53); [reflexivity | lia].
Qed.

(** Rounding keeps the sign. *)
Lemma roundDouble_nonneg (z : Z) : 0 <= z -> 0 <= JS.roundDouble z.
Proof.
  intros H; unfold JS.roundDouble.
  destruct (Z.abs z <? JS.twoTo53); [exact H|].
  set (ulp := 2 ^ (Z.log2 (Z.abs z) - 52)).
  assert (U : 0 <= ulp) by (apply Z.pow_nonneg; lia).
  assert (Q : 0 <= Z.abs z / ulp).
  { destruct (Z.eq_dec ulp 0) as [->|N]; [rewrite Z.div_0_r; lia|].
    apply Z.div_pos; lia. }
  assert (G : 0 <= Z.sgn z) by lia.
  destruct (2 * (Z.abs z mod ulp) <? ulp); [nia|].
  destruct (ulp <? 2 * (Z.abs z mod ulp)); [nia|].
  destruct (Z.even (Z.abs z / ulp)); nia.
Qed.

Lemma sub_one_safe (x : Z) :
  0 < x -> x <= maxSafeInteger -> JS.sub x 1 = x - 1.
Proof.
  intros H0 H1; unfold JS.sub; apply roundDouble_exact.
  unfold maxSafeInteger in H1; unfold JS.twoTo53; lia.
Qed.

Lemma sub_one_nonneg (x : Z) : 0 < x -> 0 <= JS.sub x 1.
Proof.
  intros H; unfold JS.sub; apply roundDouble_nonneg; lia.
Qed.

(** The other branches of the interval callback change [time] only. *)
Lemma tickCallback_nonzero (s : State) :
  time s <> zeroTime ->
  exists t, tickCallback s = setTime t s /\
    t = (if seconds (time s) >? 0
         then mkTime (hours (time s)) (minutes (time s)) (JS.sub (seconds (time s)) 1)
         else if minutes (time s) >? 0
         then mkTime (hours (time s)) (JS.sub (minutes (time s)) 1) 59
         else if hours (time s) >? 0
         then mkTime (JS.sub (hours (time s)) 1) 59 59
         else time s).
Proof.
  intros H; apply isZero_false in H.
  unfold tickCallback; unfold isZero in H; rewrite H.
  eexists; split; [|reflexivity].
  destruct (seconds (time s) >? 0); [reflexivity|].
  destruct (minutes (time s) >? 0); [reflexivity|].
  destruct (hours (time s) >? 0); reflexivity.
Qed.

Lemma tickCallback_nonNegative (s : State) :
  nonNegative (time s) -> nonNegative (time (tickCallback s)).
Proof.
  intros Hn.
  destruct (isZero (time s)) eqn:Hz.
  - apply isZero_true in Hz. rewrite (tickCallback_zero s Hz).
    unfold nonNegative; simpl; lia.
  - apply isZero_false in Hz.
    destruct (tickCallback_nonzero s Hz) as [t [-> ->]].
    destruct Hn as (Hh & Hm & Hs); simpl.
    destruct (Z.gtb_spec (seconds (time s)) 0) as [P|_];
      [pose proof (sub_one_nonneg _ P); unfold nonNegative; simpl; lia|].
    destruct (Z.gtb_spec (minutes (time s)) 0) as [P|_];
      [pose proof (sub_one_nonneg _ P); unfold nonNegative; simpl; lia|].
    destruct (Z.gtb_spec (hours (time s)) 0) as [P|_];
      [pose proof (sub_one_nonneg _ P) |]; unfold nonNegative; simpl; lia.
Qed.

Lemma tick_nonNegative (s : State) :
  nonNegative (time s) -> nonNegative (time (tick s)).
Proof.
  intros Hn; unfold tick.
  destruct (isRunning s && negb (isCompleted s)); [|exact Hn].
  apply tickCallback_nonNegative, Hn.
Qed.

Lemma ticks_nonNegative (n : nat) :
  forall s, nonNegative (time s) -> nonNegative (time (ticks n s)).
Proof.
  induction n as [|n IH]; intros s Hn; simpl.
  - exact Hn.
  - apply IH, tick_nonNegative, Hn.
Qed.

(** Once completed, the interval is cleared: more periods change nothing. *)
Lemma ticks_disarmed (n : nat) (s : State) : status s <> Running -> ticks n s = s.
Proof.
  intros H; induction n as [|n IH]; simpl.
  - reflexivity.
  - rewrite (tick_disarmed s H); exact IH.
Qed.

(** A period leaves a zero duration at zero, whatever the status. *)
Lemma tick_zero_time (s : State) : time s = zeroTime -> time (tick s) = zeroTime.
Proof.
  intros H; unfold tick.
  destruct (isRunning s && negb (isCompleted s)); [|exact H].
  rewrite (tickCallback_zero s H); reflexivity.
Qed.

Lemma ticks_zero_time (n : nat) :
  forall s, time s = zeroTime -> time (ticks n s) = zeroTime.
Proof.
  induction n as [|n IH]; intros s H; simpl.
  - exact H.
  - apply IH, tick_zero_time, H.
Qed.

(* ================================================================== *)
(** ** The countdown *)

(** The decrement of a running countdown, on safe integers. *)
Lemma tick_decrement (s : State) :
  status s = Running ->
  nonNegative (time s) ->
  safeTime (time s) ->
  time s <> zeroTime ->
  tick s = setTime (borrowDecrement (time s)) s /\
  totalSeconds (time (tick s)) = totalSeconds (time s) - 1 /\
  safeTime (time (tick s)).
Proof.
  intros Hrun (Hh & Hm & Hs) (Sh & Sm & Ss) Hnz.
  rewrite (tick_armed s Hrun).
  destruct (tickCallback_nonzero s Hnz) as [t [-> Ht]].
  assert (Hb : t = borrowDecrement (time s)).
  { subst t; unfold borrowDecrement.
    destruct (Z.gtb_spec (seconds (time s)) 0) as [Hs'|Hs'];
      [rewrite sub_one_safe by (try apply Ss; lia); reflexivity|].
    destruct (Z.gtb_spec (minutes (time s)) 0) as [Hm'|Hm'];
      [rewrite sub_one_safe by (try apply Sm; lia); reflexivity|].
    destruct (Z.gtb_spec (hours (time s)) 0) as [Hh'|Hh'];
      [rewrite sub_one_safe by (try apply Sh; lia); reflexivity|].
    exfalso; apply Hnz.
    destruct (time s) as [h m sec]; simpl in *.
    unfold zeroTime; f_equal; lia. }
  rewrite Hb; clear Ht Hb t.
  split; [reflexivity|].
  unfold safeTime, safeInteger, maxSafeInteger in *.
  simpl; unfold borrowDecrement, totalSeconds.
  destruct (Z.gtb_spec (seconds (time s)) 0) as [Hs'|Hs']; [simpl; lia|].
  destruct (Z.gtb_spec (minutes (time s)) 0) as [Hm'|Hm']; simpl; lia.
Qed.

(** A running countdown of [n] seconds shows {0,0,0} after [n] periods,
    still Running and silent; the period after that completes it with
    one beep. *)
Lemma countdown_completes (n : nat) :
  forall s,
    status s = Running ->
    nonNegative (time s) ->
    safeTime (time s) ->
    totalSeconds (time s) = Z.of_nat n ->
    time (ticks n s) = zeroTime /\
    status (ticks n s) = Running /\
    beeps (ticks n s) = beeps s /\
    status (ticks (S n) s) = Completed /\
    beeps (ticks (S n) s) = S (beeps s).
Proof.
  induction n as [|n IH]; intros s Hrun Hn Hsafe Ht.
  - assert (Hz : time s = zeroTime).
    { destruct Hn as (Hh & Hm & Hs); unfold totalSeconds in Ht.
      destruct (time s) as [h m sec]; simpl in *.
      unfold zeroTime; f_equal; lia. }
    simpl. rewrite (tick_armed s Hrun), (tickCallback_zero s Hz).
    repeat split; assumption.
  - assert (Hnz : time s <> zeroTime).
    { intros Hz; rewrite Hz in Ht; change (totalSeconds zeroTime) with 0 in Ht; lia. }
    destruct (tick_decrement s Hrun Hn Hsafe Hnz) as (E & T & F).
    change (ticks (S (S n)) s) with (ticks (S n) (tick s)).
    change (ticks (S n) s) with (ticks n (tick s)).
    destruct (IH (tick s)) as (I1 & I2 & I3 & I4 & I5).
    + rewrite E; exact Hrun.
    + apply tick_nonNegative, Hn.
    + exact F.
    + lia.
    + assert (B : beeps (tick s) = beeps s) by (rewrite E; reflexivity).
      rewrite <- B. repeat split; assumption.
Qed.

(** C1, as the specification states it, fails on large numbers.  The
    field is a double: from 2^53 on a difference is rounded, and
    10^20 - 1 is 10^20 again.  A running countdown of 10^20 seconds
    (the text 0:100000000000000000000, then Start) is left as it is by
    a tick, where the borrow arithmetic takes one second off. *)
Lemma tick_large_duration_unchanged :
  status hugeState = Running /\
  time hugeState = mkTime 0 0 (10 ^ 20) /\
  time hugeState <> zeroTime /\
  tick hugeState = hugeState /\
  time (tick hugeState) <> borrowDecrement (time hugeState).
Proof.
  assert (E : tick hugeState = hugeState) by (vm_compute; reflexivity).
  split; [vm_compute; reflexivity|].
  split; [vm_compute; reflexivity|].
  split; [vm_compute; discriminate|].
  split; [exact E|].
  rewrite E; vm_compute; discriminate.
Qed.

(** C1, amended.  While the status is Running, one tick on a duration
    other than {0,0,0} whose fields are non-negative safe integers (at
    most 2^53 - 1, where the subtraction of doubles is exact)
    decrements it with borrow: seconds if positive, else a minute is
    borrowed and seconds become 59, else an hour is borrowed and minutes
    and seconds become 59.  The duration drops by exactly one second,
    nothing else in the state changes, and {0,1,0} becomes {0,0,59}. *)
Theorem tick_borrow_decrement (s : State) :
  status s = Running ->
  nonNegative (time s) ->
  safeTime (time s) ->
  time s <> zeroTime ->
  tick s = setTime (borrowDecrement (time s)) s /\
  totalSeconds (time (tick s)) = totalSeconds (time s) - 1 /\
  (time s = mkTime 0 1 0 -> time (tick s) = mkTime 0 0 59).
Proof.
  intros Hrun Hn Hsafe Hnz.
  destruct (tick_decrement s Hrun Hn Hsafe Hnz) as (E & T & _).
  split; [exact E|]. split; [exact T|].
  intros H; rewrite E; simpl; rewrite H; reflexivity.
Qed.

Lemma tick_borrow_decrement_witness :
  let s := mkState (mkTime 0 1 0) true false false "01:00" 0 in
  tick s = setTime (borrowDecrement (time s)) s /\
  totalSeconds (time (tick s)) = totalSeconds (time s) - 1 /\
  (time s = mkTime 0 1 0 -> time (tick s) = mkTime 0 0 59).
Proof.
  intros s; apply (tick_borrow_decrement s).
  - reflexivity.
  - unfold nonNegative; simpl; lia.
  - unfold safeTime, safeInteger, maxSafeInteger; simpl; lia.
  - discriminate.
Defined.

(** C2.  A tick while Running on the duration {0,0,0} does not
    decrement: the status becomes Completed, the beep is played once and
    the alert is shown, the duration stays {0,0,0}, and no later period
    plays the beep again.  From {0,0,1} the first tick gives {0,0,0} with
    the status still Running and no beep; the second one completes. *)
Theorem tick_at_zero_completes (s : State) :
  status s = Running ->
  (time s = zeroTime ->
     time (tick s) = zeroTime /\
     status (tick s) = Completed /\
     isRunning (tick s) = false /\
     showAlert (tick s) = true /\
     beeps (tick s) = S (beeps s) /\
     inputValue (tick s) = inputValue s /\
     forall n, ticks n (tick s) = tick s) /\
  (time s = mkTime 0 0 1 ->
     tick s = setTime zeroTime s /\
     status (tick s) = Running /\
     beeps (tick s) = beeps s /\
     time (tick (tick s)) = zeroTime /\
     status (tick (tick s)) = Completed /\
     showAlert (tick (tick s)) = true /\
     beeps (tick (tick s)) = S (beeps s)).
Proof.
  intros Hrun; split; intros Ht.
  - rewrite (tick_armed s Hrun), (tickCallback_zero s Ht).
    repeat split.
    intros n; apply ticks_disarmed; discriminate.
  - assert (E : tick s = setTime zeroTime s).
    { rewrite (tick_armed s Hrun); unfold tickCallback; rewrite Ht; reflexivity. }
    assert (Hrun' : status (tick s) = Running) by (rewrite E; exact Hrun).
    rewrite (tick_armed (tick s) Hrun').
    rewrite (tickCallback_zero (tick s)) by (rewrite E; reflexivity).
    rewrite E; repeat split; exact Hrun.
Qed.

Lemma tick_at_zero_completes_witness :
  let s0 := mkState zeroTime true false false "00:00" 0 in
  let s1 := mkState (mkTime 0 0 1) true false false "00:01" 0 in
  (status (tick s0) = Completed /\ beeps (tick s0) = 1%nat /\ time (tick s0) = zeroTime) /\
  (time (tick s1) = zeroTime /\ status (tick s1) = Running /\
   status (tick (tick s1)) = Completed /\ beeps (tick (tick s1)) = 1%nat).
Proof.
  intros s0 s1; split.
  - destruct (tick_at_zero_completes s0 eq_refl) as [H _].
    destruct (H eq_refl) as (Ht & Hst & _ & _ & Hb & _).
    repeat split; assumption.
  - destruct (tick_at_zero_completes s1 eq_refl) as [_ H].
    destruct (H eq_refl) as (E & Hst & _ & _ & Hc & _ & Hb).
    rewrite E at 1.
    repeat split; assumption.
Defined.

(** C10.  A tick keeps every field non-negative, any number of ticks
    does, and a duration that is {0,0,0} stays {0,0,0}. *)
Theorem tick_preserves_nonNegative (s : State) :
  nonNegative (time s) ->
  nonNegative (time (tick s)) /\
  (forall n, nonNegative (time (ticks n s))) /\
  (time s = zeroTime -> forall n, time (ticks n s) = zeroTime).
Proof.
  intros Hn; split; [|split].
  - apply tick_nonNegative, Hn.
  - intros n; apply ticks_nonNegative, Hn.
  - intros Hz n; apply ticks_zero_time, Hz.
Qed.

Lemma tick_preserves_nonNegative_witness :
  let s := mkState (mkTime 0 0 2) true false false "00:02" 0 in
  nonNegative (time (tick s)) /\
  (forall n, nonNegative (time (ticks n s))) /\
  (time s = zeroTime -> forall n, time (ticks n s) = zeroTime).
Proof.
  intros s; apply (tick_preserves_nonNegative s).
  unfold nonNegative; simpl; lia.
Defined.

(* ================================================================== *)
(** ** The handlers *)

(** C4.  Start on the duration {0,0,0} changes nothing (an Idle widget
    stays Idle); Start on another duration, when the status is not
    Running, sets the status to Running with [isCompleted] cleared and
    leaves the duration alone. *)
Theorem handleStart_guarded (s : State) :
  (time s = zeroTime ->
     handleStart s = s /\
     (status s = Idle -> status (handleStart s) = Idle)) /\
  (time s <> zeroTime -> status s <> Running ->
     status (handleStart s) = Running /\
     isRunning (handleStart s) = true /\
     isCompleted (handleStart s) = false /\
     time (handleStart s) = time s /\
     inputValue (handleStart s) = inputValue s /\
     beeps (handleStart s) = beeps s).
Proof.
  split.
  - intros Hz; apply isZero_true in Hz.
    assert (E : handleStart s = s) by (unfold handleStart; rewrite Hz; reflexivity).
    split; [exact E|]. rewrite E; trivial.
  - intros Hnz _; apply isZero_false in Hnz.
    unfold handleStart; rewrite Hnz; simpl.
    repeat split.
Qed.

Lemma handleStart_guarded_witness :
  (handleStart (setTime zeroTime initialState) = setTime zeroTime initialState /\
   status (handleStart (setTime zeroTime initialState)) = Idle) /\
  (status (handleStart initialState) = Running /\
   time (handleStart initialState) = mkTime 0 5 0).
Proof.
  split.
  - destruct (handleStart_guarded (setTime zeroTime initialState)) as [H _].
    destruct (H eq_refl) as [E Hi].
    split; [exact E | exact (Hi eq_refl)].
  - destruct (handleStart_guarded initialState) as [_ H].
    assert (Hnz : time initialState <> zeroTime) by discriminate.
    assert (Hst : status initialState <> Running) by discriminate.
    destruct (H Hnz Hst) as (Hr & _ & _ & Ht & _).
    split; [exact Hr | exact Ht].
Defined.

(** C5.  Reset, from any state, gives the Idle status with
    [isCompleted] cleared and the duration parsed from the current
    [inputValue]; it also hides the alert and keeps the input text. *)
Theorem handleReset_reparses (s : State) :
  status (handleReset s) = Idle /\
  isRunning (handleReset s) = false /\
  isCompleted (handleReset s) = false /\
  time (handleReset s) = parseTimeInput (inputValue s) /\
  showAlert (handleReset s) = false /\
  inputValue (handleReset s) = inputValue s /\
  beeps (handleReset s) = beeps s.
Proof.
  unfold handleReset; simpl; repeat split.
Qed.

(** C6, as the specification states it, fails for the input edit: the
    handler stores the new text in [inputValue] before it tests
    [isRunning].  Here the text of a running widget goes from 05:00 to
    10:00. *)
Lemma input_edit_while_running_not_noop :
  status startedState = Running /\
  inputValue startedState = "05:00" /\
  inputValue (handleInputChange "10:00" startedState) = "10:00" /\
  handleInputChange "10:00" startedState <> startedState.
Proof.
  repeat split; discriminate.
Qed.

(** C6, amended.  While the status is Running a preset selection leaves
    the whole state unchanged, and an input edit leaves the duration,
    the flags and the beep count unchanged and stores the edited text in
    [inputValue].  When [isRunning] is false both take effect: the preset
    sets the duration to {0,m,0} and the input text to its display form,
    the edit sets the duration to the parsed text, and both clear
    [isCompleted]. *)
Theorem edits_while_running (s : State) (m : Z) (v : string) :
  (status s = Running ->
     handlePreset m s = s /\
     handleInputChange v s = setInputValue v s /\
     time (handleInputChange v s) = time s /\
     status (handleInputChange v s) = status s) /\
  (isRunning s = false ->
     handlePreset m s =
       mkState (mkTime 0 m 0) false false (showAlert s)
               (formatTime (mkTime 0 m 0)) (beeps s) /\
     handleInputChange v s =
       mkState (parseTimeInput v) false false (showAlert s) v (beeps s)).
Proof.
  split.
  - intros H; apply status_Running in H as [Hr Hc].
    unfold handlePreset, handleInputChange; rewrite Hr; simpl.
    repeat split.
  - intros Hr.
    unfold handlePreset, handleInputChange; rewrite Hr; simpl.
    unfold setIsCompleted; simpl; rewrite Hr.
    split; reflexivity.
Qed.

Lemma edits_while_running_witness :
  (handlePreset 10 startedState = startedState /\
   time (handleInputChange "10:00" startedState) = mkTime 0 5 0) /\
  (time (handlePreset 10 initialState) = mkTime 0 10 0 /\
   time (handleInputChange "10:00" initialState) = mkTime 0 10 0).
Proof.
  split.
  - destruct (edits_while_running startedState 10 "10:00") as [H _].
    destruct (H eq_refl) as (Hp & _ & Ht & _).
    split; [exact Hp | exact Ht].
  - destruct (edits_while_running initialState 10 "10:00") as [_ H].
    destruct (H eq_refl) as (Hp & Hi).
    rewrite Hp, Hi; split; reflexivity.
Defined.

(** C8.  Pause on a widget that is not running (Idle in particular)
    changes nothing; Pause while Running gives Idle and leaves the
    duration alone; Pause twice is Pause once. *)
Theorem handlePause_idempotent (s : State) :
  (isRunning s = false -> handlePause s = s) /\
  (status s = Idle -> handlePause s = s) /\
  (status s = Running ->
     status (handlePause s) = Idle /\ time (handlePause s) = time s) /\
  handlePause (handlePause s) = handlePause s.
Proof.
  assert (N : isRunning s = false -> handlePause s = s).
  { intros Hr; destruct s; simpl in Hr; subst; reflexivity. }
  split; [exact N|].
  split; [intros H; apply status_Idle in H as [Hr _]; exact (N Hr)|].
  split; [|reflexivity].
  intros H; apply status_Running in H as [_ Hc].
  unfold handlePause, status; simpl; rewrite Hc; split; reflexivity.
Qed.

Lemma handlePause_idempotent_witness :
  handlePause initialState = initialState /\
  status (handlePause startedState) = Idle /\
  time (handlePause startedState) = mkTime 0 5 0.
Proof.
  destruct (handlePause_idempotent initialState) as (_ & Hi & _).
  destruct (handlePause_idempotent startedState) as (_ & _ & Hr & _).
  split; [exact (Hi eq_refl)|exact (Hr eq_refl)].
Defined.

(* ================================================================== *)
(** ** The invariant of the two flags *)

Lemma tickCallback_exclusive (s : State) : exclusive s -> exclusive (tickCallback s).
Proof.
  intros H; destruct (isZero (time s)) eqn:Hz.
  - apply isZero_true in Hz; rewrite (tickCallback_zero s Hz); reflexivity.
  - apply isZero_false in Hz.
    destruct (tickCallback_nonzero s Hz) as [t [-> _]]; exact H.
Qed.

Lemma step_exclusive (s : State) (e : Event) : exclusive s -> exclusive (step s e).
Proof.
  intros H; destruct e; simpl.
  - unfold handleStart; destruct (isZero (time s)); [exact H|reflexivity].
  - reflexivity.
  - reflexivity.
  - unfold tick; destruct (isRunning s && negb (isCompleted s));
      [apply tickCallback_exclusive, H | exact H].
  - unfold handlePreset; destruct (isRunning s) eqn:Hr; simpl; [exact H|].
    unfold exclusive; simpl; rewrite Hr; reflexivity.
  - unfold handleInputChange; destruct (isRunning s) eqn:Hr; simpl.
    + unfold exclusive in *; simpl; exact H.
    + unfold exclusive; simpl; rewrite Hr; reflexivity.
  - exact H.
Qed.

Lemma run_exclusive (events : list Event) :
  forall s, exclusive s -> exclusive (run s events).
Proof.
  induction events as [|e events IH]; intros s H; simpl.
  - exact H.
  - apply IH, step_exclusive, H.
Qed.

(** C9.  In every state reached from the initial one by Start, Pause,
    Reset, Tick, preset selections, input edits (and Dismiss),
    [isRunning] and [isCompleted] are not both true. *)
Theorem running_completed_exclusive (events : list Event) :
  isRunning (run initialState events) && isCompleted (run initialState events) = false.
Proof.
  apply (run_exclusive events initialState); reflexivity.
Qed.

(* ================================================================== *)
(** ** The display form *)

Lemma length_append (a b : string) :
  String.length (a ++ b) = (String.length a + String.length b)%nat.
Proof.
  induction a as [|c a IH]; simpl; [reflexivity | rewrite IH; reflexivity].
Qed.

Lemma filler_length (fill : string) (n : nat) :
  fill <> EmptyString ->
  forall cur, String.length (JS.filler fill cur n) = n.
Proof.
  intros Hf; induction n as [|n IH]; intros cur; simpl; [reflexivity|].
  destruct cur as [|c r]; simpl.
  - destruct fill as [|c r]; [contradiction|]. simpl; rewrite IH; reflexivity.
  - rewrite IH; reflexivity.
Qed.

(** [padStart] returns at least [target] characters, and the string
    itself when it is long enough. *)
Lemma padStart_length (target : nat) (fill s : string) :
  fill <> EmptyString ->
  String.length (JS.padStart target fill s) = Nat.max target (String.length s).
Proof.
  intros Hf; unfold JS.padStart.
  destruct (Nat.leb_spec target (String.length s)) as [H|H].
  - lia.
  - rewrite length_append, filler_length by exact Hf. lia.
Qed.

Lemma toDigits_length (fuel : nat) :
  forall n acc, (String.length acc <= String.length (JS.toDigits fuel n acc))%nat.
Proof.
  induction fuel as [|f IH]; intros n acc; simpl; [lia|].
  destruct (n / 10 =? 0); simpl; [lia|].
  specialize (IH (n / 10) (String (JS.digitChar (n mod 10)) acc)); simpl in IH; lia.
Qed.

Lemma toString_two_digits (n : Z) : 10 <= n -> (2 <= String.length (JS.toString n))%nat.
Proof.
  intros H; unfold JS.toString.
  destruct (Z.ltb_spec n 0) as [Hn|_]; [lia|].
  unfold JS.digitFuel.
  assert (L : 3 <= Z.log2 n) by (apply Z.log2_le_pow2; simpl; lia).
  destruct (Z.to_nat (Z.log2 n)) as [|k] eqn:E; [lia|].
  simpl.
  destruct (Z.eqb_spec (n / 10) 0) as [Hq|_].
  - assert (1 <= n / 10) by (apply Z.div_le_lower_bound; lia). lia.
  - destruct (n / 10 / 10 =? 0); simpl; [lia|].
    match goal with |- (2 <= String.length (JS.toDigits k ?m ?acc))%nat =>
      pose proof (toDigits_length k m acc) as Hl end.
    simpl in Hl; lia.
Qed.

(** A property of the ten digits is checked on each of them. *)
Lemma below_ten (P : Z -> Prop) :
  Forall P (map Z.of_nat (seq 0 10)) -> forall d, 0 <= d <= 9 -> P d.
Proof.
  intros H d Hd. rewrite Forall_forall in H. apply H.
  apply in_map_iff. exists (Z.to_nat d).
  split; [lia | apply in_seq; lia].
Qed.

Lemma radixDigit_digitChar (d : Z) :
  0 <= d <= 9 -> JS.radixDigit 10 (JS.digitChar d) = Some d.
Proof.
  revert d; apply below_ten; simpl.
  repeat (constructor; [reflexivity|]); constructor.
Qed.

(** The digits written by [toDigits] read back as the number, when the
    fuel covers them. *)
Lemma scanDigits_toDigits (fuel : nat) :
  forall n acc seen,
    0 <= n < 10 ^ Z.of_nat (S fuel) ->
    JS.scanDigits 10 (JS.toDigits (S fuel) n acc) 0 seen = JS.scanDigits 10 acc n true.
Proof.
  induction fuel as [|f IH]; intros n acc seen Hn.
  - change (10 ^ Z.of_nat 1) with 10 in Hn.
    simpl. rewrite Z.div_small by lia. rewrite Z.mod_small by lia. simpl.
    rewrite radixDigit_digitChar by lia. reflexivity.
  - change (JS.toDigits (S (S f)) n acc)
      with (if n / 10 =? 0 then String (JS.digitChar (n mod 10)) acc
            else JS.toDigits (S f) (n / 10) (String (JS.digitChar (n mod 10)) acc)).
    pose proof (Z.mod_pos_bound n 10 ltac:(lia)) as Hm.
    pose proof (Z.div_mod n 10 ltac:(lia)) as Hd.
    destruct (Z.eqb_spec (n / 10) 0) as [Hq|Hq].
    + simpl. rewrite radixDigit_digitChar by lia.
      f_equal; lia.
    + rewrite IH.
      * simpl. rewrite radixDigit_digitChar by lia. f_equal; lia.
      * split; [apply Z.div_pos; lia|].
        apply Z.div_lt_upper_bound; [lia|].
        rewrite <- Z.pow_succ_r by lia.
        rewrite <- Nat2Z.inj_succ. lia.
Qed.

Lemma digitFuel_covers (n : Z) : 0 <= n -> n < 10 ^ Z.of_nat (JS.digitFuel n).
Proof.
  intros Hn; unfold JS.digitFuel.
  rewrite Nat2Z.inj_succ, Z2Nat.id by apply Z.log2_nonneg.
  destruct (Z.eq_dec n 0) as [->|Hz]; [reflexivity|].
  pose proof (Z.log2_spec n ltac:(lia)) as [_ Hu].
  eapply Z.lt_le_trans; [exact Hu|].
  apply Z.pow_le_mono_l.
  pose proof (Z.log2_nonneg n); lia.
Qed.

(** [toString] of a non-negative integer is its decimal numeral: read as
    decimal digits it gives the integer back. *)
Lemma toString_value (n : Z) :
  0 <= n -> JS.scanDigits 10 (JS.toString n) 0 false = Some n.
Proof.
  intros Hn; unfold JS.toString.
  destruct (Z.ltb_spec n 0) as [H|_]; [lia|].
  pose proof (digitFuel_covers n Hn) as Hc.
  unfold JS.digitFuel in *.
  rewrite scanDigits_toDigits by lia.
  reflexivity.
Qed.

Lemma pad2_length (n : Z) : (2 <= String.length (pad2 n))%nat.
Proof.
  unfold pad2; rewrite padStart_length by discriminate. lia.
Qed.

Lemma pad2_one_digit (n : Z) :
  0 <= n <= 9 -> pad2 n = String "0" (String (JS.digitChar n) EmptyString).
Proof.
  revert n; apply below_ten; simpl.
  repeat (constructor; [reflexivity|]); constructor.
Qed.

Lemma pad2_two_digits (n : Z) : 10 <= n -> pad2 n = JS.toString n.
Proof.
  intros H; unfold pad2, JS.padStart.
  pose proof (toString_two_digits n H) as L.
  destruct (Nat.leb_spec 2 (String.length (JS.toString n))); [reflexivity | lia].
Qed.

(* ================================================================== *)
(** ** The parser *)

Lemma trimStart_head (s : string) :
  JS.trimStart s = EmptyString \/
  exists c r, JS.trimStart s = String c r /\ JS.isWhiteSpace c = false.
Proof.
  induction s as [|c r IH]; simpl; [left; reflexivity|].
  destruct (JS.isWhiteSpace c) eqn:E; [exact IH|].
  right; exists c, r; auto.
Qed.

Lemma trimEnd_head (c : ascii) (r : string) :
  JS.isWhiteSpace c = false -> exists r', JS.trimEnd (String c r) = String c r'.
Proof.
  intros H; simpl. destruct (JS.trimEnd r); rewrite ?H; eauto.
Qed.

(** [parseInt] skips leading blanks; after [trim] there are none. *)
Lemma trimStart_trim (s : string) : JS.trimStart (JS.trim s) = JS.trim s.
Proof.
  unfold JS.trim.
  destruct (trimStart_head s) as [-> | (c & r & -> & Hc)]; [reflexivity|].
  destruct (trimEnd_head c r Hc) as [r' ->].
  simpl; rewrite Hc; reflexivity.
Qed.

Lemma radixDigit_decimal (c : ascii) :
  JS.radixDigit 10 c = if isDigit c then Some (JS.code c - 48) else None.
Proof.
  unfold JS.radixDigit, JS.digitValue, isDigit.
  set (n := JS.code c).
  destruct ((48 <=? n) && (n <=? 57)) eqn:D.
  - apply andb_true_iff in D as [D1 D2]; apply Z.leb_le in D1, D2.
    destruct (Z.ltb_spec (n - 48) 10); [reflexivity | lia].
  - destruct ((97 <=? n) && (n <=? 122)) eqn:L.
    + apply andb_true_iff in L as [L1 _]; apply Z.leb_le in L1.
      destruct (Z.ltb_spec (n - 87) 10); [lia | reflexivity].
    + destruct ((65 <=? n) && (n <=? 90)) eqn:U; [|reflexivity].
      apply andb_true_iff in U as [U1 _]; apply Z.leb_le in U1.
      destruct (Z.ltb_spec (n - 55) 10); [lia | reflexivity].
Qed.

Lemma stripPrefix_no_x (c x : ascii) (r : string) :
  isDigit x = true \/ isDigit c = false ->
  JS.stripPrefix (String c (String x r)) = (10, String c (String x r)).
Proof.
  intros H; unfold JS.stripPrefix.
  destruct (Ascii.eqb_spec c "0") as [Ec|_]; [|reflexivity].
  destruct (Ascii.eqb_spec x "x") as [Ex|_];
    [subst; destruct H; discriminate|].
  destruct (Ascii.eqb_spec x "X") as [Ex|_];
    [subst; destruct H; discriminate|].
  reflexivity.
Qed.

Lemma scanDigits_allDigits (s : string) :
  allDigits s = true ->
  forall acc, JS.scanDigits 10 s acc true = Some (decimalValue s acc).
Proof.
  induction s as [|c r IH]; intros H acc; simpl; [reflexivity|].
  simpl in H; apply andb_true_iff in H as [Hc Hr].
  rewrite radixDigit_decimal, Hc. apply IH, Hr.
Qed.

Lemma orZero_Some (v : Z) : JS.orZero (Some v) = v.
Proof.
  simpl; destruct (Z.eqb_spec v 0) as [->|_]; reflexivity.
Qed.


(** A decimal numeral has its value. *)
Lemma partValue_numeral (part : string) :
  isNumeric part = true -> partValue part = numeralValue part.
Proof.
  unfold isNumeric, numeralValue, unsignedBody, partValue, JS.parseInt.
  rewrite trimStart_trim.
  destruct (JS.stripSign (JS.trim part)) as [sign body]; simpl.
  destruct body as [|c r]; [discriminate|].
  intros H.
  assert (E : JS.stripPrefix (String c r) = (10, String c r)).
  { destruct r as [|x r]; [reflexivity|].
    apply stripPrefix_no_x; left.
    simpl in H. apply andb_true_iff in H as [_ H].
    apply andb_true_iff in H as [H _]; exact H. }
  rewrite E.
  assert (S : JS.scanDigits 10 (String c r) 0 false
              = Some (decimalValue (String c r) 0)).
  { simpl in H; apply andb_true_iff in H as [Hc Hr].
    simpl. rewrite radixDigit_decimal, Hc. apply scanDigits_allDigits, Hr. }
  rewrite S; apply orZero_Some.
Qed.






(* ================================================================== *)
(** ** The countdown as a whole *)

(** While seconds remain a running countdown keeps running: after [k]
    periods it has lost [k] seconds and has not beeped. *)
Lemma ticks_running (k : nat) :
  forall s,
    status s = Running ->
    nonNegative (time s) ->
    safeTime (time s) ->
    Z.of_nat k <= totalSeconds (time s) ->
    status (ticks k s) = Running /\
    totalSeconds (time (ticks k s)) = totalSeconds (time s) - Z.of_nat k /\
    beeps (ticks k s) = beeps s.
Proof.
  induction k as [|k IH]; intros s Hrun Hn Hsafe Hk.
  - simpl; repeat split; [exact Hrun | lia].
  - assert (Hnz : time s <> zeroTime).
    { intros Hz; rewrite Hz in Hk; change (totalSeconds zeroTime) with 0 in Hk; lia. }
    destruct (tick_decrement s Hrun Hn Hsafe Hnz) as (E & T & F).
    change (ticks (S k) s) with (ticks k (tick s)).
    destruct (IH (tick s)) as (I1 & I2 & I3).
    + rewrite E; exact Hrun.
    + apply tick_nonNegative, Hn.
    + exact F.
    + lia.
    + split; [exact I1|]. split; [lia|].
      rewrite I3, E; reflexivity.
Qed.

(** X1.  Start on a duration of [n] seconds (fields non-negative safe
    integers, not {0,0,0}) begins a countdown that stays Running for
    [n] periods, showing one second less after each and no beep; it
    shows {0,0,0} after the [n]-th, and the period after that one
    completes it with one beep and the alert. *)
Theorem started_countdown_completes (s : State) (n : nat) :
  nonNegative (time s) ->
  safeTime (time s) ->
  time s <> zeroTime ->
  totalSeconds (time s) = Z.of_nat n ->
  (forall k, (k <= n)%nat ->
     status (ticks k (handleStart s)) = Running /\
     totalSeconds (time (ticks k (handleStart s))) = Z.of_nat (n - k) /\
     beeps (ticks k (handleStart s)) = beeps s) /\
  time (ticks n (handleStart s)) = zeroTime /\
  status (ticks (S n) (handleStart s)) = Completed /\
  showAlert (ticks (S n) (handleStart s)) = true /\
  beeps (ticks (S n) (handleStart s)) = S (beeps s).
Proof.
  intros Hn Hsafe Hnz Ht.
  assert (E : handleStart s = setIsCompleted false (setIsRunning true s)).
  { unfold handleStart. apply isZero_false in Hnz; rewrite Hnz; reflexivity. }
  assert (Hrun : status (handleStart s) = Running) by (rewrite E; reflexivity).
  assert (Htime : time (handleStart s) = time s) by (rewrite E; reflexivity).
  assert (Hb : beeps (handleStart s) = beeps s) by (rewrite E; reflexivity).
  split.
  - intros k Hk.
    destruct (ticks_running k (handleStart s)) as (R1 & R2 & R3);
      [exact Hrun | rewrite Htime; exact Hn | rewrite Htime; exact Hsafe
       | rewrite Htime; lia |].
    split; [exact R1|]. split; [rewrite R2, Htime; lia | rewrite R3; exact Hb].
  - destruct (countdown_completes n (handleStart s)) as (C1 & C2 & C3 & C4 & C5);
      [exact Hrun | rewrite Htime; exact Hn | rewrite Htime; exact Hsafe
       | rewrite Htime; exact Ht |].
    split; [exact C1|]. split; [exact C4|]. split; [|rewrite C5, Hb; reflexivity].
    change (ticks (S n) (handleStart s)) with (ticks n (tick (handleStart s))).
    clear - C1 C2.
    replace (ticks n (tick (handleStart s))) with (tick (ticks n (handleStart s))).
    + rewrite (tick_armed _ C2), (tickCallback_zero _ C1); reflexivity.
    + generalize (handleStart s); clear; induction n as [|n IH]; intros s; simpl;
        [reflexivity | apply IH].
Qed.

Lemma started_countdown_completes_witness :
  status (ticks 60 (handleStart (setTime (mkTime 0 1 0) initialState))) = Running /\
  time (ticks 60 (handleStart (setTime (mkTime 0 1 0) initialState))) = zeroTime /\
  status (ticks 61 (handleStart (setTime (mkTime 0 1 0) initialState))) = Completed /\
  beeps (ticks 61 (handleStart (setTime (mkTime 0 1 0) initialState))) = 1%nat.
Proof.
  destruct (started_countdown_completes (setTime (mkTime 0 1 0) initialState) 60)
    as (H & Hz & Hc & _ & Hb).
  - unfold nonNegative; simpl; lia.
  - unfold safeTime, safeInteger, maxSafeInteger; simpl; lia.
  - discriminate.
  - reflexivity.
  - destruct (H 60%nat (le_n _)) as (Hr & _).
    split; [exact Hr|]. split; [exact Hz|]. split; [exact Hc | exact Hb].
Defined.

(** X2.  A running countdown whose fields are all at most 0 and not all
    0 (the parser gives one for the text -5:00) never moves: no period
    changes the state, so it never completes. *)
Theorem nonpositive_countdown_stuck (s : State) :
  status s = Running ->
  hours (time s) <= 0 -> minutes (time s) <= 0 -> seconds (time s) <= 0 ->
  time s <> zeroTime ->
  forall n, ticks n s = s.
Proof.
  intros Hrun Hh Hm Hs Hnz.
  assert (E : tick s = s).
  { rewrite (tick_armed s Hrun).
    destruct (tickCallback_nonzero s Hnz) as [t [-> ->]].
    destruct (Z.gtb_spec (seconds (time s)) 0); [lia|].
    destruct (Z.gtb_spec (minutes (time s)) 0); [lia|].
    destruct (Z.gtb_spec (hours (time s)) 0); [lia|].
    apply setTime_same. }
  induction n as [|n IH]; simpl; [reflexivity | rewrite E; exact IH].
Qed.

Lemma nonpositive_countdown_stuck_witness :
  time (run initialState [InputChange "-5:00"; Start]) = mkTime 0 (-5) 0 /\
  ticks 1000 (run initialState [InputChange "-5:00"; Start])
  = run initialState [InputChange "-5:00"; Start].
Proof.
  split; [reflexivity|].
  apply (nonpositive_countdown_stuck (run initialState [InputChange "-5:00"; Start]));
    try reflexivity; try discriminate.
Defined.

(* ================================================================== *)
(** ** Pause and resume *)

(** X3.  Pause freezes a running countdown: no period changes the
    paused state, the duration is the one that was left, and Start
    brings back exactly the state that was paused. *)
Theorem pause_then_start_resumes (s : State) :
  status s = Running ->
  time s <> zeroTime ->
  (forall n, ticks n (handlePause s) = handlePause s) /\
  time (handlePause s) = time s /\
  handleStart (handlePause s) = s.
Proof.
  intros Hrun Hnz.
  apply status_Running in Hrun as [Hr Hc].
  split; [|split].
  - intros n; apply ticks_disarmed.
    unfold status; simpl; rewrite Hc; discriminate.
  - reflexivity.
  - unfold handleStart; simpl.
    apply isZero_false in Hnz; rewrite Hnz.
    destruct s; simpl in *; subst; reflexivity.
Qed.

Lemma pause_then_start_resumes_witness :
  handleStart (handlePause (tick startedState)) = tick startedState /\
  time (handlePause (tick startedState)) = mkTime 0 4 59.
Proof.
  destruct (pause_then_start_resumes (tick startedState)) as (_ & Ht & Hs);
    [reflexivity | discriminate |].
  split; [exact Hs | rewrite Ht; reflexivity].
Defined.

Lemma step_paused_at_zero (s : State) (e : Event) :
  isRunning s = false -> time s = zeroTime -> clockEvent e = true -> step s e = s.
Proof.
  intros Hr Hz He; destruct e; try discriminate He; simpl.
  - unfold handleStart. apply isZero_true in Hz; rewrite Hz; reflexivity.
  - destruct s; simpl in *; subst; reflexivity.
  - unfold tick; rewrite Hr; reflexivity.
Qed.

(** X4.  Pause on a running countdown that already shows {0,0,0} (the
    completing period has not come yet) leaves the widget Idle at
    {0,0,0}; Start, Pause and the interval then change nothing, so the
    countdown is never completed and the beep is never played. *)
Theorem pause_at_zero_never_completes (s : State) (events : list Event) :
  status s = Running ->
  time s = zeroTime ->
  forallb clockEvent events = true ->
  status (handlePause s) = Idle /\
  run (handlePause s) events = handlePause s.
Proof.
  intros Hrun Hz Hev.
  apply status_Running in Hrun as [_ Hc].
  split; [unfold status; simpl; rewrite Hc; reflexivity|].
  induction events as [|e events IH]; simpl; [reflexivity|].
  simpl in Hev; apply andb_true_iff in Hev as [He Hev].
  rewrite (step_paused_at_zero (handlePause s) e); [exact (IH Hev) | reflexivity | exact Hz | exact He].
Qed.

Lemma pause_at_zero_never_completes_witness :
  time (run initialState [InputChange "0:01"; Start; Tick]) = zeroTime /\
  status (run initialState [InputChange "0:01"; Start; Tick; Pause; Start; Tick; Tick])
  = Idle /\
  beeps (run initialState [InputChange "0:01"; Start; Tick; Pause; Start; Tick; Tick])
  = 0%nat.
Proof.
  destruct (pause_at_zero_never_completes
              (run initialState [InputChange "0:01"; Start; Tick])
              [Start; Tick; Tick] eq_refl eq_refl eq_refl) as [Hi Hrun].
  split; [reflexivity|].
  change (run initialState [InputChange "0:01"; Start; Tick; Pause; Start; Tick; Tick])
    with (run (handlePause (run initialState [InputChange "0:01"; Start; Tick]))
              [Start; Tick; Tick]).
  rewrite Hrun; split; [exact Hi | reflexivity].
Defined.

(* ================================================================== *)
(** ** Invariants of the reachable states *)

Lemma step_completedAtZero (s : State) (e : Event) :
  completedAtZero s -> completedAtZero (step s e).
Proof.
  unfold completedAtZero; intros H; destruct e; simpl.
  - unfold handleStart; destruct (isZero (time s)); [exact H | discriminate].
  - exact H.
  - discriminate.
  - unfold tick. destruct (isRunning s && negb (isCompleted s)) eqn:A; [|exact H].
    apply andb_true_iff in A as [_ A]; apply negb_true_iff in A.
    destruct (isZero (time s)) eqn:Hz.
    + apply isZero_true in Hz; rewrite (tickCallback_zero s Hz); reflexivity.
    + apply isZero_false in Hz.
      destruct (tickCallback_nonzero s Hz) as [t [-> _]]; simpl.
      rewrite A; discriminate.
  - unfold handlePreset; destruct (isRunning s); simpl; [exact H | discriminate].
  - unfold handleInputChange; destruct (isRunning s); simpl; [exact H | discriminate].
  - exact H.
Qed.

Lemma run_completedAtZero (events : list Event) :
  forall s, completedAtZero s -> completedAtZero (run s events).
Proof.
  induction events as [|e events IH]; intros s H; simpl;
    [exact H | apply IH, step_completedAtZero, H].
Qed.

(** X5.  In every state reached from the initial one, a completed
    widget shows {0,0,0} and is not running. *)
Theorem completed_shows_zero (events : list Event) :
  isCompleted (run initialState events) = true ->
  time (run initialState events) = zeroTime /\
  isRunning (run initialState events) = false /\
  formatTime (time (run initialState events)) = "00:00".
Proof.
  intros Hc.
  assert (Hz : time (run initialState events) = zeroTime).
  { apply (run_completedAtZero events initialState); [discriminate | exact Hc]. }
  split; [exact Hz|]. split; [|rewrite Hz; reflexivity].
  pose proof (run_exclusive events initialState eq_refl) as Hx.
  unfold exclusive in Hx; rewrite Hc, andb_true_r in Hx; exact Hx.
Qed.

Lemma completed_shows_zero_witness :
  time (run initialState [InputChange "0:01"; Start; Tick; Tick; Pause; Start]) = zeroTime /\
  isRunning (run initialState [InputChange "0:01"; Start; Tick; Tick; Pause; Start]) = false.
Proof.
  destruct (completed_shows_zero [InputChange "0:01"; Start; Tick; Tick; Pause; Start] eq_refl)
    as (Hz & Hr & _).
  split; [exact Hz | exact Hr].
Defined.

Lemma step_beepCredit (s : State) (e : Event) :
  (beepCredit (step s e) <= beepCredit s + if isStart e then 1 else 0)%nat.
Proof.
  unfold beepCredit, armed; destruct e; simpl.
  - unfold handleStart; destruct (isZero (time s)); simpl; [lia|].
    destruct (isRunning s && negb (isCompleted s)); lia.
  - lia.
  - lia.
  - unfold tick. destruct (isRunning s && negb (isCompleted s)) eqn:A; [|rewrite A; lia].
    destruct (isZero (time s)) eqn:Hz.
    + apply isZero_true in Hz; rewrite (tickCallback_zero s Hz); simpl; lia.
    + apply isZero_false in Hz.
      destruct (tickCallback_nonzero s Hz) as [t [-> _]]; simpl.
      rewrite A; lia.
  - unfold handlePreset.
    destruct (isRunning s) eqn:Hr, (isCompleted s) eqn:Hc; simpl;
      rewrite ?Hr, ?Hc; simpl; lia.
  - unfold handleInputChange.
    destruct (isRunning s) eqn:Hr, (isCompleted s) eqn:Hc; simpl;
      rewrite ?Hr, ?Hc; simpl; lia.
  - lia.
Qed.

Lemma run_beepCredit (events : list Event) :
  forall s, (beepCredit (run s events) <= beepCredit s + countStart events)%nat.
Proof.
  unfold countStart.
  induction events as [|e events IH]; intros s; simpl; [lia|].
  specialize (IH (step s e)).
  pose proof (step_beepCredit s e) as Hs.
  destruct (isStart e); simpl; lia.
Qed.

(** X6.  The beep is played at most once for each press of Start:
    whatever the events, the number of beeps is at most the number of
    Start events. *)
Theorem beeps_bounded_by_starts (events : list Event) :
  (beeps (run initialState events) <= countStart events)%nat.
Proof.
  pose proof (run_beepCredit events initialState) as H.
  unfold beepCredit in H; simpl in H. lia.
Qed.

(** X7.  In every state reached from the initial one, a control that is
    rendered disabled does nothing when its handler runs: Start, Pause
    and the presets leave the state as it is, and the text input
    changes neither the duration nor the status.  An enabled Start
    gives the status Running. *)
Theorem disabled_controls_inert (events : list Event) :
  (startDisabled (run initialState events) = true ->
     handleStart (run initialState events) = run initialState events) /\
  (pauseDisabled (run initialState events) = true ->
     handlePause (run initialState events) = run initialState events) /\
  (presetDisabled (run initialState events) = true ->
     forall m, handlePreset m (run initialState events) = run initialState events) /\
  (inputDisabled (run initialState events) = true ->
     forall v,
       time (handleInputChange v (run initialState events)) = time (run initialState events) /\
       status (handleInputChange v (run initialState events)) = status (run initialState events)) /\
  (startDisabled (run initialState events) = false ->
     status (handleStart (run initialState events)) = Running).
Proof.
  pose proof (run_exclusive events initialState eq_refl) as Hx.
  set (s := run initialState events) in *.
  unfold exclusive in Hx.
  unfold startDisabled, pauseDisabled, presetDisabled, inputDisabled.
  split; [|split; [|split; [|split]]].
  - intros Hd. unfold handleStart.
    destruct (isZero (time s)); [reflexivity|].
    rewrite orb_false_r in Hd. rewrite Hd in Hx; simpl in Hx.
    destruct s; simpl in *; subst; reflexivity.
  - intros Hd; apply negb_true_iff in Hd.
    destruct s; simpl in *; subst; reflexivity.
  - intros Hd m; unfold handlePreset; rewrite Hd; reflexivity.
  - intros Hd v; unfold handleInputChange; rewrite Hd; simpl; split; reflexivity.
  - intros Hd; apply orb_false_iff in Hd as [_ Hz].
    unfold handleStart; rewrite Hz; reflexivity.
Qed.

Lemma disabled_controls_inert_witness :
  handleStart startedState = startedState /\
  handlePause initialState = initialState /\
  handlePreset 30 startedState = startedState /\
  status (handleStart initialState) = Running.
Proof.
  destruct (disabled_controls_inert [Start]) as (Hs & _ & Hp & _ & _).
  destruct (disabled_controls_inert []) as (_ & Hq & _ & _ & He).
  split; [exact (Hs eq_refl)|].
  split; [exact (Hq eq_refl)|].
  split; [exact (Hp eq_refl 30) | exact (He eq_refl)].
Defined.

(* ================================================================== *)
(** ** The interval effect *)

Lemma armed_status (s : State) : armed s = true <-> status s = Running.
Proof.
  unfold armed; rewrite status_Running, andb_true_iff, negb_true_iff; reflexivity.
Qed.

Lemma remove_only (id : nat) : remove Nat.eq_dec id [id] = [].
Proof.
  simpl; destruct (Nat.eq_dec id id) as [_|N]; [reflexivity | contradiction].
Qed.

(** The cleanup of the effect leaves nothing scheduled. *)
Lemma effectCleanup_clears (w : Widget) :
  timersAgree w -> live (effectCleanup (timers w)) = [].
Proof.
  unfold timersAgree, effectCleanup.
  destruct (armed (state w)).
  - intros (id & Hl & ->); simpl; rewrite Hl; apply remove_only.
  - intros Hl. destruct (intervalRef (timers w)); simpl; rewrite Hl; reflexivity.
Qed.

Lemma rerender_agrees (w : Widget) (s' : State) :
  timersAgree w ->
  timersAgree (mkWidget s' (rerender (state w) s' (timers w))).
Proof.
  intros H; unfold rerender.
  destruct (sameDeps (state w) s') eqn:D.
  - unfold sameDeps in D; apply andb_true_iff in D as [D1 D2].
    apply Bool.eqb_prop in D1, D2.
    unfold timersAgree, armed in *; simpl; rewrite <- D1, <- D2; exact H.
  - pose proof (effectCleanup_clears w H) as Hc.
    unfold timersAgree, effectBody; simpl.
    destruct (armed s'); simpl.
    + rewrite Hc; eauto.
    + destruct (intervalRef (effectCleanup (timers w))); simpl; rewrite ?Hc; reflexivity.
Qed.

Lemma widgetStep_state (w : Widget) (e : Event) :
  timersAgree w -> state (widgetStep w e) = step (state w) e.
Proof.
  intros H; destruct e; try reflexivity.
  simpl; unfold tick; fold (armed (state w)).
  unfold timersAgree in H.
  destruct (armed (state w)).
  - destruct H as (id & -> & _); reflexivity.
  - rewrite H; reflexivity.
Qed.

Lemma widgetRun_agrees (events : list Event) :
  forall w,
    timersAgree w ->
    state (widgetRun w events) = run (state w) events /\
    timersAgree (widgetRun w events).
Proof.
  induction events as [|e events IH]; intros w H; simpl; [auto|].
  destruct (IH (widgetStep w e)) as [Hs Ha].
  - apply (rerender_agrees w _ H).
  - rewrite Hs, (widgetStep_state w e H); auto.
Qed.

(** X8.  The component with its timers written out behaves as the
    handlers with the guarded tick do, and the effect keeps the timers
    in step with the status: while Running exactly one interval is
    scheduled, the one in [intervalRef]; otherwise none is; and
    unmounting leaves none. *)
Theorem interval_follows_status (events : list Event) :
  state (widgetRun mountedWidget events) = run initialState events /\
  (status (run initialState events) = Running ->
     exists id, live (timers (widgetRun mountedWidget events)) = [id] /\
                intervalRef (timers (widgetRun mountedWidget events)) = Some id) /\
  (status (run initialState events) <> Running ->
     live (timers (widgetRun mountedWidget events)) = []) /\
  live (unmount (widgetRun mountedWidget events)) = [].
Proof.
  destruct (widgetRun_agrees events mountedWidget) as [Hs Ha]; [reflexivity|].
  change (state mountedWidget) with initialState in Hs.
  split; [exact Hs|].
  pose proof (effectCleanup_clears _ Ha) as Hu.
  unfold timersAgree in Ha; rewrite Hs in Ha.
  split; [|split; [|exact Hu]].
  - intros Hr; apply armed_status in Hr; rewrite Hr in Ha; exact Ha.
  - intros Hr. destruct (armed (run initialState events)) eqn:A; [|exact Ha].
    apply armed_status in A; contradiction.
Qed.

Lemma interval_follows_status_witness :
  live (timers (widgetRun mountedWidget [Start; Pause; Start])) = [2%nat] /\
  live (timers (widgetRun mountedWidget [Start; Pause])) = [].
Proof.
  destruct (interval_follows_status [Start; Pause; Start]) as (_ & H & _).
  destruct (interval_follows_status [Start; Pause]) as (_ & _ & H' & _).
  split.
  - destruct (H eq_refl) as (id & Hl & Hr).
    rewrite Hl; f_equal.
    assert (E : Some id = Some 2%nat) by (rewrite <- Hr; reflexivity).
    injection E; trivial.
  - apply H'; discriminate.
Defined.

(* ================================================================== *)
(** ** Splitting on the colon *)

Lemma split_length (sep : ascii) (s : string) :
  List.length (JS.split sep s) = S (occurrences sep s).
Proof.
  induction s as [|c r IH]; simpl; [reflexivity|].
  destruct (Ascii.eqb c sep); simpl; [rewrite IH; reflexivity|].
  destruct (JS.split sep r) as [|p ps]; [discriminate IH | exact IH].
Qed.

Lemma split_without (sep : ascii) (s : string) :
  occurrences sep s = 0%nat -> JS.split sep s = [s].
Proof.
  induction s as [|c r IH]; simpl; [reflexivity|].
  destruct (Ascii.eqb c sep); [discriminate|].
  intros H; rewrite (IH H); reflexivity.
Qed.

Lemma split_append (sep : ascii) (a b : string) :
  occurrences sep a = 0%nat ->
  JS.split sep (a ++ String sep b) = a :: JS.split sep b.
Proof.
  induction a as [|c r IH]; simpl.
  - intros _; rewrite Ascii.eqb_refl; reflexivity.
  - destruct (Ascii.eqb c sep); [discriminate|].
    intros H; rewrite (IH H); reflexivity.
Qed.

(** X9.  The parser counts the colons: the text splits into one part
    more than it has colons, so a text with no colon (a bare number such
    as 90) or with three or more parses to {0,0,0}, and a text with one
    colon has hours 0. *)
Theorem parse_counts_colons (input : string) :
  List.length (JS.split ":" input) = S (colons input) /\
  (colons input <> 1%nat -> colons input <> 2%nat ->
     parseTimeInput input = mkTime 0 0 0) /\
  (colons input = 1%nat -> hours (parseTimeInput input) = 0).
Proof.
  pose proof (split_length ":" input) as L; fold (colons input) in L.
  split; [exact L|].
  unfold parseTimeInput, parts; rewrite length_map, L.
  split.
  - intros H1 H2.
    destruct (colons input) as [|[|[|k]]]; try reflexivity; contradiction.
  - intros ->; reflexivity.
Qed.

Lemma parse_counts_colons_witness :
  parseTimeInput "90" = mkTime 0 0 0 /\
  parseTimeInput "1:2:3:4" = mkTime 0 0 0 /\
  hours (parseTimeInput "90:15") = 0.
Proof.
  destruct (parse_counts_colons "90") as (_ & H0 & _).
  destruct (parse_counts_colons "1:2:3:4") as (_ & H3 & _).
  destruct (parse_counts_colons "90:15") as (_ & _ & H1).
  split; [apply H0; discriminate|].
  split; [apply H3; discriminate | apply H1; reflexivity].
Defined.

(* ================================================================== *)
(** ** Display and parsing together *)

Lemma isDigit_noSpace (c : ascii) : isDigit c = true -> JS.isWhiteSpace c = false.
Proof.
  unfold isDigit, JS.isWhiteSpace; set (n := JS.code c).
  intros H; apply andb_true_iff in H as [H1 H2]; apply Z.leb_le in H1, H2.
  replace (n <=? 13) with false by (symmetry; apply Z.leb_gt; lia).
  replace (n =? 32) with false by (symmetry; apply Z.eqb_neq; lia).
  replace (n =? 160) with false by (symmetry; apply Z.eqb_neq; lia).
  rewrite andb_false_r; reflexivity.
Qed.

Lemma isDigit_differs (c x : ascii) :
  isDigit c = true -> isDigit x = false -> Ascii.eqb c x = false.
Proof.
  intros Hc Hx; destruct (Ascii.eqb_spec c x) as [->|_]; [congruence | reflexivity].
Qed.

Lemma allDigits_noSpace (s : string) : allDigits s = true -> noSpace s = true.
Proof.
  induction s as [|c r IH]; simpl; [reflexivity|].
  intros H; apply andb_true_iff in H as [Hc Hr].
  rewrite (isDigit_noSpace c Hc), (IH Hr); reflexivity.
Qed.

Lemma allDigits_without (x : ascii) (s : string) :
  isDigit x = false -> allDigits s = true -> occurrences x s = 0%nat.
Proof.
  intros Hx; induction s as [|c r IH]; simpl; [reflexivity|].
  intros H; apply andb_true_iff in H as [Hc Hr].
  rewrite (isDigit_differs c x Hc Hx), (IH Hr); reflexivity.
Qed.

(** [trim] leaves a text without blanks as it is. *)
Lemma trim_noSpace (s : string) : noSpace s = true -> JS.trim s = s.
Proof.
  intros H; unfold JS.trim.
  assert (E : JS.trimStart s = s).
  { destruct s as [|c r]; simpl; [reflexivity|].
    simpl in H; apply andb_true_iff in H as [Hc _].
    apply negb_true_iff in Hc; rewrite Hc; reflexivity. }
  rewrite E; clear E.
  induction s as [|c r IH]; [reflexivity|].
  simpl in H; apply andb_true_iff in H as [Hc Hr].
  apply negb_true_iff in Hc.
  simpl; rewrite (IH Hr).
  destruct r; [rewrite Hc|]; reflexivity.
Qed.

Lemma partValue_digits (ds : string) :
  allDigits ds = true -> ds <> EmptyString -> partValue ds = decimalValue ds 0.
Proof.
  intros Hd Hne.
  assert (T : JS.trim ds = ds) by (apply trim_noSpace, allDigits_noSpace, Hd).
  destruct ds as [|c r]; [contradiction|].
  assert (Hc : isDigit c = true) by (simpl in Hd; apply andb_true_iff in Hd as [Hc _]; exact Hc).
  assert (Sg : JS.stripSign (String c r) = (1, String c r)).
  { unfold JS.stripSign.
    rewrite (isDigit_differs c "-" Hc eq_refl), (isDigit_differs c "+" Hc eq_refl).
    reflexivity. }
  rewrite partValue_numeral.
  - unfold numeralValue, unsignedBody; rewrite T, Sg.
    cbn [fst snd]; apply Z.mul_1_l.
  - unfold isNumeric, unsignedBody; rewrite T, Sg; exact Hd.
Qed.

Lemma partValue_minus_digits (ds : string) :
  allDigits ds = true -> ds <> EmptyString ->
  partValue (String "-" ds) = - decimalValue ds 0.
Proof.
  intros Hd Hne.
  assert (T : JS.trim (String "-" ds) = String "-" ds).
  { apply trim_noSpace; simpl. apply allDigits_noSpace, Hd. }
  assert (Sg : JS.stripSign (String "-" ds) = (-1, ds)) by reflexivity.
  rewrite partValue_numeral.
  - unfold numeralValue, unsignedBody; rewrite T, Sg.
    cbn [fst snd]; lia.
  - unfold isNumeric, unsignedBody; rewrite T, Sg; cbn [snd].
    destruct ds; [contradiction | exact Hd].
Qed.

Lemma isDigit_digitChar (d : Z) : 0 <= d <= 9 -> isDigit (JS.digitChar d) = true.
Proof.
  revert d; apply below_ten; simpl.
  repeat (constructor; [reflexivity|]); constructor.
Qed.

Lemma toDigits_allDigits (fuel : nat) :
  forall n acc,
    0 <= n -> allDigits acc = true -> allDigits (JS.toDigits fuel n acc) = true.
Proof.
  induction fuel as [|f IH]; intros n acc Hn Ha; simpl; [exact Ha|].
  assert (Hd : allDigits (String (JS.digitChar (n mod 10)) acc) = true).
  { simpl; rewrite isDigit_digitChar, Ha; [reflexivity|].
    pose proof (Z.mod_pos_bound n 10); lia. }
  destruct (n / 10 =? 0); [exact Hd|].
  apply IH; [apply Z.div_pos; lia | exact Hd].
Qed.

Lemma toString_nonneg (n : Z) :
  0 <= n -> JS.toString n = JS.toDigits (JS.digitFuel n) n EmptyString.
Proof.
  intros H; unfold JS.toString.
  destruct (Z.ltb_spec n 0); [lia | reflexivity].
Qed.

Lemma toString_negative (n : Z) :
  n < 0 -> JS.toString n = String "-" (JS.toString (- n)).
Proof.
  intros H; rewrite (toString_nonneg (- n)) by lia.
  unfold JS.toString.
  destruct (Z.ltb_spec n 0); [reflexivity | lia].
Qed.

(** The numeral of a non-negative integer: digits only, at least one,
    and their value is the integer. *)
Lemma toString_digits (n : Z) :
  0 <= n ->
  allDigits (JS.toString n) = true /\
  JS.toString n <> EmptyString /\
  decimalValue (JS.toString n) 0 = n.
Proof.
  intros Hn.
  pose proof (toString_value n Hn) as V.
  rewrite (toString_nonneg n Hn) in *.
  assert (A : allDigits (JS.toDigits (JS.digitFuel n) n EmptyString) = true)
    by (apply toDigits_allDigits; [exact Hn | reflexivity]).
  destruct (JS.toDigits (JS.digitFuel n) n EmptyString) as [|c r] eqn:E.
  - discriminate V.
  - split; [exact A|]. split; [discriminate|].
    simpl in A; apply andb_true_iff in A as [Hc Hr].
    simpl in V; rewrite radixDigit_decimal, Hc in V.
    rewrite (scanDigits_allDigits r Hr) in V.
    injection V as V; exact V.
Qed.

(** A numeral reads back as its number and holds no colon. *)
Lemma toString_text (n : Z) :
  partValue (JS.toString n) = n /\ colons (JS.toString n) = 0%nat.
Proof.
  destruct (Z.lt_ge_cases n 0) as [Hn|Hn].
  - destruct (toString_digits (- n)) as (A & Ne & V); [lia|].
    rewrite (toString_negative n Hn).
    split.
    + rewrite (partValue_minus_digits _ A Ne), V; lia.
    + unfold colons; simpl. apply (allDigits_without ":" _ eq_refl A).
  - destruct (toString_digits n Hn) as (A & Ne & V).
    split.
    + rewrite (partValue_digits _ A Ne); exact V.
    + apply (allDigits_without ":" _ eq_refl A).
Qed.

(** The padded field reads back as its number and holds no colon. *)
Lemma pad2_text (n : Z) : partValue (pad2 n) = n /\ colons (pad2 n) = 0%nat.
Proof.
  destruct (Z.lt_ge_cases n 0) as [Hneg|Hn].
  - assert (E : pad2 n = JS.toString n).
    { unfold pad2, JS.padStart.
      destruct (toString_digits (- n)) as (_ & Ne & _); [lia|].
      rewrite (toString_negative n Hneg).
      destruct (JS.toString (- n)); [contradiction | reflexivity]. }
    rewrite E; apply toString_text.
  - destruct (Z.lt_ge_cases n 10) as [Hs|Hl].
    + assert (Hd : 0 <= n <= 9) by lia.
      clear Hn Hs; revert n Hd; apply below_ten; simpl.
      repeat (constructor; [split; reflexivity|]); constructor.
    + rewrite (pad2_two_digits n Hl); apply toString_text.
Qed.







(** Parsing the display text of a duration, in the embedding (where
    numerals are exact at every magnitude). *)
Lemma parse_formatTime (t : TimeState) :
  0 <= hours t -> parseTimeInput (formatTime t) = t.
Proof.
  intros Hh.
  destruct (pad2_text (hours t)) as [Vh Ch].
  destruct (pad2_text (minutes t)) as [Vm Cm].
  destruct (pad2_text (seconds t)) as [Vs Cs].
  unfold colons in *.
  unfold formatTime, parseTimeInput, parts.
  destruct (Z.gtb_spec (hours t) 0) as [Hp|Hz].
  - change (pad2 (hours t) ++ ":" ++ pad2 (minutes t) ++ ":" ++ pad2 (seconds t))
      with (pad2 (hours t) ++ String ":" (pad2 (minutes t) ++ String ":" (pad2 (seconds t)))).
    rewrite (split_append ":" _ _ Ch), (split_append ":" _ _ Cm), (split_without ":" _ Cs).
    cbn [map List.length Nat.eqb nth]. rewrite Vh, Vm, Vs.
    destruct t; reflexivity.
  - change (pad2 (minutes t) ++ ":" ++ pad2 (seconds t))
      with (pad2 (minutes t) ++ String ":" (pad2 (seconds t))).
    rewrite (split_append ":" _ _ Cm), (split_without ":" _ Cs).
    cbn [map List.length Nat.eqb nth]. rewrite Vm, Vs.
    destruct t as [h m sec]; simpl in *.
    replace h with 0 by lia; reflexivity.
Qed.

(** X10.  What [formatTime] shows, [parseTimeInput] reads back: for a
    duration whose fields are safe integers and whose hours are not
    negative, parsing the display text gives the duration again.  (With
    hours below 0 the display drops the hours and the parse gives hours
    0; from 10^21 on the display switches to exponent notation.) *)
Theorem format_then_parse (t : TimeState) :
  0 <= hours t -> safeTime t -> parseTimeInput (formatTime t) = t.
Proof.
  intros Hh _.
  exact (parse_formatTime t Hh).
Qed.

Lemma format_then_parse_witness :
  parseTimeInput (formatTime (mkTime 12 3 45)) = mkTime 12 3 45 /\
  parseTimeInput (formatTime (mkTime 0 60 (-7))) = mkTime 0 60 (-7).
Proof.
  split; apply format_then_parse;
    unfold safeTime, safeInteger, maxSafeInteger; simpl; lia.
Defined.

(* ================================================================== *)
(** ** Reset and the configured duration *)

Lemma step_keepsInput (s : State) (e : Event) :
  keepsInput e = true -> inputValue (step s e) = inputValue s.
Proof.
  intros He; destruct e; try discriminate He; simpl; try reflexivity.
  - unfold handleStart; destruct (isZero (time s)); reflexivity.
  - unfold tick. destruct (isRunning s && negb (isCompleted s)); [|reflexivity].
    destruct (isZero (time s)) eqn:Hz.
    + apply isZero_true in Hz; rewrite (tickCallback_zero s Hz); reflexivity.
    + apply isZero_false in Hz.
      destruct (tickCallback_nonzero s Hz) as [t [-> _]]; reflexivity.
Qed.

Lemma run_keepsInput (events : list Event) :
  forall s, forallb keepsInput events = true ->
            inputValue (run s events) = inputValue s.
Proof.
  induction events as [|e events IH]; intros s H; simpl; [reflexivity|].
  simpl in H; apply andb_true_iff in H as [He Hev].
  rewrite (IH _ Hev); apply step_keepsInput, He.
Qed.

(** X11.  Reset brings back the duration that was configured last:
    after a preset of [m] minutes (chosen while not running) or an edit
    to the text [v], and then any Start, Pause, Reset, Dismiss and
    interval events, Reset sets the duration to {0,m,0}, or to the parse
    of [v]. *)
Theorem reset_restores_configured (s : State) (events : list Event) :
  forallb keepsInput events = true ->
  (isRunning s = false ->
     forall m, time (handleReset (run (handlePreset m s) events)) = mkTime 0 m 0) /\
  (forall v, time (handleReset (run (handleInputChange v s) events)) = parseTimeInput v).
Proof.
  intros Hev; split.
  - intros Hr m.
    unfold handleReset; simpl. rewrite (run_keepsInput events _ Hev).
    unfold handlePreset; rewrite Hr; simpl.
    apply parse_formatTime; simpl; lia.
  - intros v.
    unfold handleReset; simpl. rewrite (run_keepsInput events _ Hev).
    unfold handleInputChange; destruct (isRunning s); reflexivity.
Qed.

Lemma reset_restores_configured_witness :
  time (run initialState [Preset 15; Start; Tick; Tick; Pause; Reset]) = mkTime 0 15 0 /\
  time (run initialState [InputChange "2:30"; Start; Tick; Reset]) = mkTime 0 2 30.
Proof.
  destruct (reset_restores_configured initialState [Start; Tick; Tick; Pause] eq_refl)
    as [Hp _].
  destruct (reset_restores_configured initialState [Start; Tick] eq_refl) as [_ Hi].
  split.
  - exact (Hp eq_refl 15).
  - exact (Hi "2:30").
Defined.

(* ================================================================== *)
(** ** Where negative fields come from *)

Lemma radixDigit_nonneg (R : Z) (c : ascii) (v : Z) :
  JS.radixDigit R c = Some v -> 0 <= v.
Proof.
  unfold JS.radixDigit, JS.digitValue; set (n := JS.code c).
  destruct ((48 <=? n) && (n <=? 57)) eqn:D.
  - apply andb_true_iff in D as [D _]; apply Z.leb_le in D.
    destruct (n - 48 <? R); [|discriminate]. intros E; injection E as <-; lia.
  - destruct ((97 <=? n) && (n <=? 122)) eqn:L.
    + apply andb_true_iff in L as [L _]; apply Z.leb_le in L.
      destruct (n - 87 <? R); [|discriminate]. intros E; injection E as <-; lia.
    + destruct ((65 <=? n) && (n <=? 90)) eqn:U; [|discriminate].
      apply andb_true_iff in U as [U _]; apply Z.leb_le in U.
      destruct (n - 55 <? R); [|discriminate]. intros E; injection E as <-; lia.
Qed.

Lemma scanDigits_nonneg (R : Z) (s : string) :
  0 <= R ->
  forall acc seen v, 0 <= acc -> JS.scanDigits R s acc seen = Some v -> 0 <= v.
Proof.
  intros HR; induction s as [|c r IH]; intros acc seen v Ha; simpl.
  - destruct seen; [|discriminate]. intros E; injection E as <-; exact Ha.
  - destruct (JS.radixDigit R c) as [d|] eqn:E.
    + apply IH. pose proof (radixDigit_nonneg R c d E). nia.
    + destruct seen; [|discriminate]. intros E'; injection E' as <-; exact Ha.
Qed.

Lemma stripPrefix_radix (s : string) : 0 <= fst (JS.stripPrefix s).
Proof.
  unfold JS.stripPrefix.
  destruct s as [|c0 [|c1 r]]; simpl; try lia.
  destruct (Ascii.eqb c0 "0" && (Ascii.eqb c1 "x" || Ascii.eqb c1 "X")); simpl; lia.
Qed.

(** Without a sign the number read is not negative. *)
Lemma unsigned_nonneg (s : string) :
  0 <= JS.orZero (let '(R, s2) := JS.stripPrefix s in
                  option_map (Z.mul 1) (JS.scanDigits R s2 0 false)).
Proof.
  pose proof (stripPrefix_radix s) as HR.
  destruct (JS.stripPrefix s) as [R s2]; simpl in HR.
  destruct (JS.scanDigits R s2 0 false) as [v|] eqn:E; simpl; [|lia].
  pose proof (scanDigits_nonneg R s2 HR 0 false v (Z.le_refl 0) E).
  destruct v; simpl; lia.
Qed.

Lemma partValue_negative (part : string) :
  partValue part < 0 -> exists r, JS.trim part = String "-" r.
Proof.
  unfold partValue, JS.parseInt; rewrite trimStart_trim.
  destruct (JS.trim part) as [|c r]; [simpl; lia|].
  unfold JS.stripSign.
  destruct (Ascii.eqb_spec c "-") as [->|_]; [eauto|].
  intros H; exfalso.
  destruct (Ascii.eqb c "+").
  - pose proof (unsigned_nonneg r); lia.
  - pose proof (unsigned_nonneg (String c r)); lia.
Qed.

Lemma occurrences_trimStart (x : ascii) (s : string) :
  (occurrences x (JS.trimStart s) <= occurrences x s)%nat.
Proof.
  induction s as [|c r IH]; simpl; [lia|].
  destruct (JS.isWhiteSpace c); simpl; lia.
Qed.

Lemma occurrences_trimEnd (x : ascii) (s : string) :
  (occurrences x (JS.trimEnd s) <= occurrences x s)%nat.
Proof.
  induction s as [|c r IH]; simpl; [lia|].
  destruct (JS.trimEnd r) as [|c' r'].
  - destruct (JS.isWhiteSpace c); simpl; lia.
  - simpl in *; lia.
Qed.

Lemma occurrences_split (x sep : ascii) (s : string) :
  Forall (fun p => (occurrences x p <= occurrences x s)%nat) (JS.split sep s).
Proof.
  induction s as [|c r IH]; simpl.
  - constructor; [simpl; lia | constructor].
  - assert (W : Forall (fun p => (occurrences x p <=
                 (if Ascii.eqb c x then 1 else 0) + occurrences x r)%nat)
                 (JS.split sep r)).
    { eapply Forall_impl; [|exact IH]. simpl; intros p Hp; lia. }
    destruct (Ascii.eqb c sep).
    + constructor; [simpl; lia | exact W].
    + destruct (JS.split sep r) as [|p ps]; [constructor; [simpl; lia | constructor]|].
      inversion IH as [|p' ps' Hp Hps]; subst.
      inversion W as [|p' ps' _ Wps]; subst.
      constructor; [simpl; lia | exact Wps].
Qed.

Lemma partValue_nonneg (part : string) :
  occurrences "-" part = 0%nat -> 0 <= partValue part.
Proof.
  intros H.
  destruct (Z.lt_ge_cases (partValue part) 0) as [Hneg|Hn]; [|exact Hn].
  destruct (partValue_negative part Hneg) as [r E].
  pose proof (occurrences_trimEnd "-" (JS.trimStart part)) as H1.
  pose proof (occurrences_trimStart "-" part) as H2.
  fold (JS.trim part) in H1; rewrite E in H1; simpl in H1. lia.
Qed.

Lemma nth_nonneg (l : list Z) :
  Forall (fun x => 0 <= x) l -> forall i, 0 <= nth i l 0.
Proof.
  induction 1 as [|x l Hx _ IH]; intros [|i]; simpl; try lia; try exact Hx; apply IH.
Qed.

(** A text without a minus sign parses to non-negative fields. *)
Lemma parse_nonNegative (input : string) :
  hasMinus input = false -> nonNegative (parseTimeInput input).
Proof.
  unfold hasMinus; intros H.
  apply negb_false_iff, Nat.eqb_eq in H.
  assert (P : Forall (fun x => 0 <= x) (parts input)).
  { unfold parts. apply Forall_map.
    eapply Forall_impl; [|exact (occurrences_split "-" ":" input)].
    simpl; intros p Hp. apply partValue_nonneg; lia. }
  pose proof (nth_nonneg _ P) as N.
  unfold parseTimeInput, nonNegative.
  destruct (List.length (parts input) =? 2)%nat; simpl;
    [repeat split; try lia; apply N|].
  destruct (List.length (parts input) =? 3)%nat; simpl;
    [repeat split; apply N | lia].
Qed.

Lemma step_wellFormed (s : State) (e : Event) :
  benign e = true -> wellFormed s -> wellFormed (step s e).
Proof.
  intros He [Ht Hi].
  assert (K : keepsInput e = true -> nonNegative (parseTimeInput (inputValue (step s e))))
    by (intros K; rewrite (step_keepsInput s e K); exact Hi).
  destruct e; simpl in *.
  - split; [|exact (K eq_refl)].
    unfold handleStart; destruct (isZero (time s)); exact Ht.
  - split; [exact Ht | exact Hi].
  - split; [exact Hi | exact Hi].
  - split; [apply tick_nonNegative, Ht | exact (K eq_refl)].
  - apply Z.leb_le in He.
    unfold handlePreset; destruct (isRunning s); simpl; [split; assumption|].
    unfold wellFormed; simpl.
    rewrite parse_formatTime by (simpl; lia).
    unfold nonNegative; simpl; split; lia.
  - apply negb_true_iff in He.
    pose proof (parse_nonNegative value He) as Hv.
    unfold handleInputChange; destruct (isRunning s); simpl; split; assumption.
  - split; [exact Ht | exact Hi].
Qed.

(** X12.  A negative field needs a minus sign: a part has a negative
    value only if it begins, blanks apart, with a minus sign; a text
    without one parses to non-negative fields; and when no edit has a
    minus sign and no preset is negative (the six presets of the page
    are not), every reachable state has a duration with non-negative
    fields. *)
Theorem negative_needs_minus (events : list Event) :
  (forall part, partValue part < 0 -> exists r, JS.trim part = String "-" r) /\
  (forall input, hasMinus input = false -> nonNegative (parseTimeInput input)) /\
  (forallb benign events = true -> nonNegative (time (run initialState events))) /\
  forallb (fun m => benign (Preset m)) presetButtons = true.
Proof.
  split; [exact partValue_negative|].
  split; [exact parse_nonNegative|].
  split; [|reflexivity].
  assert (G : forall s, wellFormed s -> forallb benign events = true ->
                        wellFormed (run s events)).
  { induction events as [|e events IH]; intros s W H; simpl; [exact W|].
    simpl in H; apply andb_true_iff in H as [He Hev].
    apply IH; [apply step_wellFormed; assumption | exact Hev]. }
  intros H; apply (G initialState); [|exact H].
  split; [unfold nonNegative; simpl; lia | apply parse_nonNegative; reflexivity].
Qed.

Lemma negative_needs_minus_witness :
  nonNegative (parseTimeInput "7:x9") /\
  nonNegative (time (run initialState [InputChange "1:30"; Start; Tick; Preset 5; Reset])) /\
  JS.trim " -3 " = "-3".
Proof.
  destruct (negative_needs_minus [InputChange "1:30"; Start; Tick; Preset 5; Reset])
    as (Hp & Hi & Hr & _).
  split; [apply Hi; reflexivity|].
  split; [apply Hr; reflexivity|].
  destruct (Hp " -3 ") as [r E]; [reflexivity|].
  rewrite E; f_equal.
  assert (E' : String "-" r = "-3") by (rewrite <- E; reflexivity).
  injection E' as ->; reflexivity.
Defined.

(* ================================================================== *)
(** ** Leaving the Completed status *)

Lemma step_completed_quiet (s : State) (e : Event) :
  isCompleted s = true -> isRunning s = false -> time s = zeroTime ->
  quietEvent e = true ->
  isCompleted (step s e) = true /\ isRunning (step s e) = false /\
  time (step s e) = zeroTime /\ beeps (step s e) = beeps s.
Proof.
  intros Hc Hr Hz He; destruct e; try discriminate He; simpl.
  - unfold handleStart. rewrite (proj2 (isZero_true _) Hz). auto.
  - auto.
  - unfold tick; rewrite Hr; simpl; auto.
  - auto.
Qed.

(** X13.  A completed widget stays completed until it is reset or
    reconfigured: from a reachable Completed state, Start, Pause,
    Dismiss and the interval leave the status Completed, the duration
    {0,0,0} and the beep count as they are. *)
Theorem completed_until_reset (events later : list Event) :
  isCompleted (run initialState events) = true ->
  forallb quietEvent later = true ->
  status (run (run initialState events) later) = Completed /\
  time (run (run initialState events) later) = zeroTime /\
  beeps (run (run initialState events) later) = beeps (run initialState events).
Proof.
  intros Hc Hq.
  pose proof (run_completedAtZero events initialState) as Hz.
  pose proof (run_exclusive events initialState eq_refl) as Hx.
  unfold exclusive in Hx; rewrite Hc, andb_true_r in Hx.
  specialize (Hz ltac:(discriminate) Hc).
  set (s := run initialState events) in *.
  assert (G : forall s', isCompleted s' = true -> isRunning s' = false ->
                time s' = zeroTime ->
                isCompleted (run s' later) = true /\
                time (run s' later) = zeroTime /\
                beeps (run s' later) = beeps s').
  { clear - Hq. induction later as [|e later IH]; intros s' C R Z; simpl; [auto|].
    simpl in Hq; apply andb_true_iff in Hq as [He Hq].
    destruct (step_completed_quiet s' e C R Z He) as (C' & R' & Z' & B').
    destruct (IH Hq (step s' e) C' R' Z') as (I1 & I2 & I3).
    rewrite <- B'; auto. }
  destruct (G s Hc Hx Hz) as (G1 & G2 & G3).
  split; [apply status_Completed, G1 | auto].
Qed.

Lemma completed_until_reset_witness :
  status (run (run initialState [InputChange "0:00"; Preset 0; InputChange "0:01";
                                 Start; Tick; Tick])
              [Start; Tick; Dismiss; Pause; Start])
  = Completed.
Proof.
  destruct (completed_until_reset
              [InputChange "0:00"; Preset 0; InputChange "0:01"; Start; Tick; Tick]
              [Start; Tick; Dismiss; Pause; Start] eq_refl eq_refl) as [H _].
  exact H.
Defined.
